(** * Florgon API: scopes, validation, serialization and the request
    authentication pipeline

    A shallow embedding of
    - [auth-api/app/services/permissions.py] (module [Permissions]),
    - [api/app/services/validators/user.py] (modules [Validators] and
      [SignupValidators]),
    - [api/app/services/request/auth.py] (module [Auth]),
    - [api/app/serializers/user.py] (module [Serializers]),
    - [api/app/routers/email.py] (module [EmailRouter]),
    with the Python notions they rest on (module [Py]): exceptions as a result
    type, [str.split], [str.join] and truthiness.

    Code that raises returns [Raise e]; code that talks to the database or to
    the token codec runs in the monad [Auth.M], which threads the database and
    a trace of the calls made to the collaborators.

    [auth.py] imports the enum of permissions and the scope parser of the api
    service, [app.services.permissions], which is not among the sources; the
    pipeline takes them as a parameter ([Auth.ApiPermissions]), so what is
    proved of it holds for whatever members that enum has. *)

From stdpp Require Import gmap strings list fin_maps.
From Stdlib Require Import ZArith Ascii.

Open Scope string_scope.

(** ** Python values, exceptions and strings *)
Module Py.

(** [ApiErrorCode] of [app.services.api.errors]: the members the sources name. *)
Inductive ApiErrorCode :=
| API_INVALID_REQUEST
| API_TOO_MANY_REQUESTS
| API_METHOD_NOT_FOUND
| API_INTERNAL_SERVER_ERROR
| API_FORBIDDEN
| AUTH_REQUIRED
| AUTH_INVALID_TOKEN
| AUTH_EXPIRED_TOKEN
| AUTH_INSUFFICIENT_PERMISSIONS
| AUTH_INVALID_CREDENTIALS
| AUTH_EMAIL_TAKEN
| AUTH_USERNAME_TAKEN
| AUTH_EMAIL_INVALID
| AUTH_USERNAME_INVALID
| AUTH_PASSWORD_INVALID
| USER_DEACTIVATED
| EMAIL_CONFIRMATION_TOKEN_INVALID
| EMAIL_CONFIRMATION_USER_NOT_FOUND
| EMAIL_CONFIRMATION_ALREADY_CONFIRMED.

#[global] Instance ApiErrorCode_eq_dec : EqDecision ApiErrorCode.
Proof. solve_decision. Defined.

(** Modelled from the spec: [app.services.api.errors] and
    [app.tokens.exceptions] are not among the sources.  [ApiErrorException]
    carries a code, a message and optional data (the handler
    [api_error_exception_handler] reads [api_code], [message], [data]).  The
    decode-layer errors are exception classes of their own: the routers catch
    them by class and [exception_handlers/_handlers.py] answers each with a
    handler of its own, none of which reads a code from the exception.
    [ValueError], [AttributeError] and [KeyError] are Python's. *)
Inductive Exception :=
| ApiErrorException (api_code : ApiErrorCode) (message : string)
    (data : option (gmap string string))
| TokenInvalidError
| TokenExpiredError
| TokenWrongTypeError
| TokenInvalidSignatureError
| ValueError (message : string)
| AttributeError (name : string)
| KeyError (key : string).

#[global] Instance Exception_eq_dec : EqDecision Exception.
Proof. solve_decision. Defined.

(** [isinstance(e, ApiErrorException)]. *)
Definition is_ApiErrorException (e : Exception) : bool :=
  match e with
  | ApiErrorException _ _ _ => true
  | _ => false
  end.

(** The code an [ApiErrorException] carries. *)
Definition api_code_of (e : Exception) : option ApiErrorCode :=
  match e with
  | ApiErrorException c _ _ => Some c
  | _ => None
  end.

Definition message_of (e : Exception) : option string :=
  match e with
  | ApiErrorException _ m _ => Some m
  | _ => None
  end.

Definition data_of (e : Exception) : option (gmap string string) :=
  match e with
  | ApiErrorException _ _ d => d
  | _ => None
  end.

(** The outcome of a call: a value, or the exception it raised. *)
Inductive Result (A : Type) :=
| Ok (a : A)
| Raise (e : Exception).
Arguments Ok {A} a.
Arguments Raise {A} e.

Definition rbind {A B} (r : Result A) (k : A → Result B) : Result B :=
  match r with
  | Ok a => k a
  | Raise e => Raise e
  end.

(** A list comprehension whose element expression may raise: the first
    exception ends it. *)
Fixpoint rmap {A B} (f : A → Result B) (l : list A) : Result (list B) :=
  match l with
  | [] => Ok []
  | x :: xs => rbind (f x) (λ y, rbind (rmap f xs) (λ ys, Ok (y :: ys)))
  end.

(** Truthiness of a [str]: the empty string is false. *)
Definition str_truthy (s : string) : bool :=
  match s with
  | EmptyString => false
  | String _ _ => true
  end.

(** [s.split(sep)] for a separator [sep] of one character. *)
Fixpoint str_split (sep : ascii) (s : string) : list string :=
  match s with
  | EmptyString => [EmptyString]
  | String c s' =>
      if Ascii.eqb c sep then EmptyString :: str_split sep s'
      else match str_split sep s' with
           | [] => [String c EmptyString]
           | t :: ts => String c t :: ts
           end
  end.

(** [sep.join(l)]. *)
Fixpoint str_join (sep : string) (l : list string) : string :=
  match l with
  | [] => EmptyString
  | x :: xs =>
      match xs with
      | [] => x
      | _ :: _ => x +:+ sep +:+ str_join sep xs
      end
  end.

(** The character [c] occurs in [s]. *)
Fixpoint str_mem (c : ascii) (s : string) : bool :=
  match s with
  | EmptyString => false
  | String d s' => Ascii.eqb d c || str_mem c s'
  end.

End Py.
Export Py.

(** ** [auth-api/app/services/permissions.py] *)
Module Permissions.

(** [class Permission(Enum)]: one member. *)
Inductive Permission :=
| oauth_clients.

#[global] Instance Permission_eq_dec : EqDecision Permission.
Proof. solve_decision. Defined.

(** [permission.value]. *)
Definition value (p : Permission) : string :=
  match p with
  | oauth_clients => "oauth_clients"
  end.

(** [permission.name]. *)
Definition name (p : Permission) : string :=
  match p with
  | oauth_clients => "oauth_clients"
  end.

(** The members, in definition order. *)
Definition members : list Permission := [oauth_clients].

(** [Permission[key]]: the member of that name, [KeyError] when there is none. *)
Definition Permission_getitem (key : string) : Result Permission :=
  match List.find (λ p, String.eqb (name p) key) members with
  | Some p => Ok p
  | None => Raise (KeyError key)
  end.

Definition SCOPE_PERMISSION_SEPARATOR : ascii := ","%char.

Definition SCOPE_ALLOWED_PERMISSIONS : list string :=
  map value [oauth_clients].

(** [permission in SCOPE_ALLOWED_PERMISSIONS and permission], as a truth value. *)
Definition scope_token_kept (permission : string) : bool :=
  bool_decide (permission ∈ SCOPE_ALLOWED_PERMISSIONS) && str_truthy permission.

Definition parse_permissions_from_scope (scope : string) : Result (list Permission) :=
  rmap Permission_getitem
    (List.filter scope_token_kept (str_split SCOPE_PERMISSION_SEPARATOR scope)).

Definition normalize_scope (scope : string) : Result string :=
  rbind (parse_permissions_from_scope scope)
    (λ permissions,
       Ok (str_join (String SCOPE_PERMISSION_SEPARATOR EmptyString)
             (map value permissions))).

End Permissions.
Export Permissions.

(** ** Database models *)

(** Modelled from the spec: [app.database.models.user] is not among the
    sources; the columns are those the sources read. *)
Module User.
Record t := mk {
  id : Z;
  username : string;
  email : string;
  password : string;
  is_active : bool;
  is_admin : bool;
  is_vip : bool;
  is_verified : bool;
  time_online : option Z;
}.

(** [user.time_online = now]. *)
Definition set_time_online (now : Z) (u : t) : t :=
  {| id := id u; username := username u; email := email u;
     password := password u; is_active := is_active u; is_admin := is_admin u;
     is_vip := is_vip u; is_verified := is_verified u;
     time_online := Some now |}.
End User.

(** Modelled from the spec: [app.database.models.user_session] is not among
    the sources; the columns are those the sources read. *)
Module UserSession.
Record t := mk {
  id : Z;
  owner_id : Z;
  token_secret : string;
  is_active : bool;
}.
End UserSession.

(** ** [api/app/services/validators/user.py] *)
Module Validators.

Section Signin.

(** [app.services.passwords.check_password(password, hashed_password)]. *)
Variable check_password : string → string → bool.

Definition validate_signin_fields (user : option User.t) (password : string)
  : Result unit :=
  if match user with
     | None => true
     | Some u => negb (check_password password (User.password u))
     end
  then Raise (ApiErrorException AUTH_INVALID_CREDENTIALS
                "Invalid credentials for authentication." None)
  else Ok tt.

End Signin.

End Validators.
Export Validators.

(** ** [api/app/services/request/auth.py] *)
Module Auth.

(** A value of a token payload: an [int], or something that is not one. *)
Inductive PyValue :=
| PyInt (z : Z)
| PyStr (s : string)
| PyNone.

(** The token classes of [app.tokens]. *)
Inductive TokenClass :=
| AccessToken
| SessionToken
| RefreshToken
| OAuthCode
| EmailToken.

#[global] Instance TokenClass_eq_dec : EqDecision TokenClass.
Proof. solve_decision. Defined.

(** Modelled from the spec: the token classes are not among the sources.
    [cls.get_type()] is the type tag of the class; the access tag is the one
    [_decode_token] compares with. *)
Definition class_get_type (cls : TokenClass) : string :=
  match cls with
  | AccessToken => "access"
  | SessionToken => "session"
  | RefreshToken => "refresh"
  | OAuthCode => "oauth"
  | EmailToken => "email"
  end.

(** A decoded token, by the methods [auth.py] calls on it. *)
Module BaseToken.
Record t := mk {
  get_type : string;
  get_subject : Z;
  get_session_id : PyValue;
  get_scope : string;
  signature_is_valid : bool;
}.
End BaseToken.

(** [fastapi.requests.Request], by the two mappings [auth.py] reads. *)
Module Request.
Record t := mk {
  headers : gmap string string;
  query_params : gmap string string;
}.

(** [mapping.get(key, "")]. *)
Definition get (m : gmap string string) (key : string) : string :=
  default "" (m !! key).
End Request.

(** What [auth.py] imports from [app.services.permissions] of the api
    service.  That module is not among the sources (the file of the auth
    service declares another, smaller enum), so it is a parameter of the
    pipeline: the enum [Permission] with decidable equality, the [value] of a
    member, the member [noexpire] that [_decode_token] names, and
    [parse_permissions_from_scope]. *)
Module ApiPermissions.
Record t := mk {
  Permission : Type;
  eq_dec : EqDecision Permission;
  value : Permission → string;
  noexpire : Permission;
  parse_permissions_from_scope : string → Result (list Permission);
}.
End ApiPermissions.

Coercion ApiPermissions.Permission : ApiPermissions.t >-> Sortclass.
#[global] Existing Instance ApiPermissions.eq_dec.

(** [app.services.request.auth_data.AuthData], over the enum of permissions. *)
Module AuthData.
Record t (P : Type) := mk {
  token : BaseToken.t;
  session : UserSession.t;
  permissions : list P;
  user : option User.t;
}.
Arguments mk {P} token session permissions user.
Arguments token {P} a : rename.
Arguments session {P} a : rename.
Arguments permissions {P} a : rename.
Arguments user {P} a : rename.

(** [auth_data.user = user]. *)
Definition set_user {P} (u : User.t) (a : t P) : t P :=
  {| token := token a; session := session a; permissions := permissions a;
     user := Some u |}.
End AuthData.

(** [required_permissions: list[Permission] | Permission | None]. *)
Inductive Required (P : Type) :=
| ReqNone
| ReqOne (p : P)
| ReqList (l : list P).
Arguments ReqNone {P}.
Arguments ReqOne {P} p.
Arguments ReqList {P} l.

(** Truthiness of [required_permissions]: [None] and the empty list are false. *)
Definition required_truthy {P} (r : Required P) : bool :=
  match r with
  | ReqNone => false
  | ReqOne _ => true
  | ReqList [] => false
  | ReqList (_ :: _) => true
  end.

(** The list [required_permissions] stands for once it is known to be truthy. *)
Definition required_list {P} (r : Required P) : list P :=
  match r with
  | ReqNone => []
  | ReqOne p => [p]
  | ReqList l => l
  end.

(** The calls the pipeline makes to its collaborators. *)
Inductive Event :=
| EvDecodeUnsigned (cls : TokenClass) (token : string)
| EvSessionGetById (session_id : Z)
| EvSessionCheckClient (session : UserSession.t) (request : Request.t)
| EvDecode (cls : TokenClass) (token key : string)
| EvUserGetById (user_id : Z)
| EvCommit.

(** The call is a client check. *)
Definition is_client_check (ev : Event) : bool :=
  match ev with
  | EvSessionCheckClient _ _ => true
  | _ => false
  end.

(** The client checks of a session lookup: one, of that session, when the
    check is not skipped and a request is supplied. *)
Definition checks_of (skip : bool) (request : option Request.t)
    (session : UserSession.t) : list Event :=
  match skip, request with
  | false, Some r => [EvSessionCheckClient session r]
  | _, _ => []
  end.

(** The database behind [db], and the calls made so far. *)
Record World := mkWorld {
  db_user_sessions : gmap Z UserSession.t;
  db_users : gmap Z User.t;
  trace : list Event;
}.

Definition log (ev : Event) (w : World) : World :=
  {| db_user_sessions := db_user_sessions w; db_users := db_users w;
     trace := trace w ++ [ev] |}.

(** The client checks of the lookup of session [session_id]: those of the
    session when it is stored and active. *)
Definition lookup_checks (w : World) (session_id : Z) (skip : bool)
    (request : option Request.t) : list Event :=
  match db_user_sessions w !! session_id with
  | Some session =>
      if UserSession.is_active session then checks_of skip request session
      else []
  | None => []
  end.

(** The databases of two worlds agree. *)
Definition same_db (w w' : World) : Prop :=
  db_user_sessions w' = db_user_sessions w ∧ db_users w' = db_users w.

(** Computations over the world that may raise. *)
Definition M (A : Type) : Type := World → Result A * World.

Definition ret {A} (a : A) : M A := λ w, (Ok a, w).

Definition raise {A} (e : Exception) : M A := λ w, (Raise e, w).

Definition bind {A B} (m : M A) (k : A → M B) : M B :=
  λ w, match m w with
       | (Ok a, w') => k a w'
       | (Raise e, w') => (Raise e, w')
       end.

(** The computation only adds calls to the trace, none of them a client
    check. *)
Definition no_client_check {A} (m : M A) : Prop :=
  ∀ w, ∃ tail, trace (m w).2 = (trace w ++ tail)%list
               ∧ Forall (λ ev, is_client_check ev = false) tail.

(** A call of pure code that may raise. *)
Definition lift {A} (r : Result A) : M A := λ w, (r, w).

(** [try: body except ApiErrorException: handler]. *)
Definition try_except_ApiErrorException {A} (body handler : M A) : M A :=
  λ w, match body w with
       | (Ok a, w') => (Ok a, w')
       | (Raise e, w') =>
           if is_ApiErrorException e then handler w' else (Raise e, w')
       end.

Notation "'let*' x ':=' m 'in' k" := (bind m (λ x, k))
  (at level 10, x name, m at level 100, k at level 200).

(** The collaborators that are not among the sources: the token codec of
    [app.tokens], the client check of
    [app.services.request.session_check_client] and the clock.  The client
    check is the checker of the spec's interfaces, [check(session, request)],
    which fails when the request does not match the session: it returns or
    raises, and writes nothing. *)
Record Collaborators := mkCollaborators {
  decode_unsigned : TokenClass → string → Result BaseToken.t;
  decode : TokenClass → string → string → Result BaseToken.t;
  session_check_client_by_request : UserSession.t → Request.t → Result unit;
  datetime_now : Z;
}.

Section Pipeline.

Variable perms : ApiPermissions.t.
Variable ext : Collaborators.

(** [token_type.decode_unsigned(token)]. *)
Definition call_decode_unsigned (cls : TokenClass) (token : string)
  : M BaseToken.t :=
  λ w, (decode_unsigned ext cls token, log (EvDecodeUnsigned cls token) w).

(** [token_type.decode(token, key=key)]. *)
Definition call_decode (cls : TokenClass) (token key : string) : M BaseToken.t :=
  λ w, (decode ext cls token key, log (EvDecode cls token key) w).

(** [crud.user_session.get_by_id(db, session_id=session_id)]. *)
Definition crud_user_session_get_by_id (session_id : Z)
  : M (option UserSession.t) :=
  λ w, (Ok (db_user_sessions w !! session_id), log (EvSessionGetById session_id) w).

(** [crud.user.get_by_id(db=db, user_id=user_id)]. *)
Definition crud_user_get_by_id (user_id : Z) : M (option User.t) :=
  λ w, (Ok (db_users w !! user_id), log (EvUserGetById user_id) w).

(** [session_check_client_by_request(db, session, request)]. *)
Definition call_session_check_client (session : UserSession.t)
    (request : Request.t) : M unit :=
  λ w, (session_check_client_by_request ext session request,
        log (EvSessionCheckClient session request) w).

(** [user.time_online = datetime.now(); db.commit()] for the row fetched under
    [user_id]: the object the caller holds is the updated one. *)
Definition update_time_online (user_id : Z) (user : User.t) : M User.t :=
  λ w, let user' := User.set_time_online (datetime_now ext) user in
       (Ok user',
        {| db_user_sessions := db_user_sessions w;
           db_users := <[user_id := user']> (db_users w);
           trace := trace w ++ [EvCommit] |}).

Definition integrity_check_error : Exception :=
  ApiErrorException AUTH_INVALID_TOKEN
    "Authentication system integrity check failed!" None.

Definition _raise_integrity_check_error {A} : M A :=
  raise integrity_check_error.

Definition _get_token_from_request (req : Request.t) (only_session_token : bool)
  : string :=
  if only_session_token then Request.get (Request.query_params req) "session_token"
  else
    let token_header := Request.get (Request.headers req) "Authorization" in
    let token_param := Request.get (Request.query_params req) "access_token" in
    if str_truthy token_header then token_header else token_param.

Definition insufficient_permissions_error (required_scope : string) : Exception :=
  ApiErrorException AUTH_INSUFFICIENT_PERMISSIONS
    ("Insufficient permissions to call this method! (required scope permissions: "
       +:+ required_scope +:+ ")")
    (Some {[ "required_scope" := required_scope ]}).

Definition _query_scope_permissions (scope : string)
    (required_permissions : Required perms) : Result (list perms) :=
  rbind (ApiPermissions.parse_permissions_from_scope perms scope) (λ permissions,
    if negb (required_truthy required_permissions) then Ok permissions
    else
      let required_permissions := required_list required_permissions in
      let unsatisfied_permissions :=
        List.filter (λ permission, negb (bool_decide (permission ∈ permissions)))
          required_permissions in
      if negb (bool_decide (unsatisfied_permissions = [])) then
        let required_scope :=
          str_join ", " (map (ApiPermissions.value perms) unsatisfied_permissions) in
        Raise (insufficient_permissions_error required_scope)
      else Ok permissions).

Definition session_closed_error : Exception :=
  ApiErrorException AUTH_INVALID_TOKEN
    "Token is not usable as session was closed!" None.

Definition _query_session_from_sid (session_id : PyValue)
    (request : option Request.t) (allow_external_clients : bool)
  : M UserSession.t :=
  match session_id with
  | PyInt session_id =>
      let* session := crud_user_session_get_by_id session_id in
      match session with
      | None => _raise_integrity_check_error
      | Some session =>
          if negb (UserSession.is_active session) then raise session_closed_error
          else
            match negb allow_external_clients, request with
            | true, Some request =>
                let* _ := call_session_check_client session request in
                ret session
            | _, _ => ret session
            end
      end
  | _ => _raise_integrity_check_error
  end.

Definition invalid_signature_error : Exception :=
  ApiErrorException AUTH_INVALID_TOKEN
    "Unable to validate signature of the token!" None.

Definition auth_required_error : Exception :=
  ApiErrorException AUTH_REQUIRED "Authentication required!" None.

Definition _decode_token (token : string) (token_type : TokenClass)
    (required_permissions : Required perms) (request : option Request.t)
    (allow_external_clients : bool) : M (AuthData.t perms) :=
  if negb (bool_decide (token_type = AccessToken))
     && negb (bool_decide (token_type = SessionToken))
  then raise (ValueError
    "Unexpected type of the token type inside _decode_token! Should be access or session!")
  else if negb (str_truthy token) then raise auth_required_error
  else
    let* unsigned_token := call_decode_unsigned token_type token in
    let scope :=
      if String.eqb (class_get_type token_type) "access"
      then BaseToken.get_scope unsigned_token else "" in
    let* permissions := lift (_query_scope_permissions scope required_permissions) in
    let allow_external_clients :=
      if negb allow_external_clients
      then bool_decide (ApiPermissions.noexpire perms ∈ permissions)
      else true in
    let* session :=
      _query_session_from_sid (BaseToken.get_session_id unsigned_token) request
        allow_external_clients in
    let* signed_token :=
      call_decode token_type token (UserSession.token_secret session) in
    if negb (BaseToken.signature_is_valid signed_token)
    then raise invalid_signature_error
    else ret (AuthData.mk signed_token session permissions None).

Definition user_deactivated_error : Exception :=
  ApiErrorException USER_DEACTIVATED
    "User account currently deactivated and this method does not allow deactivated users!"
    None.

Definition _query_auth_data (auth_data : AuthData.t perms)
    (allow_deactivated : bool) (trigger_online_update : bool)
  : M (AuthData.t perms) :=
  let user_id := BaseToken.get_subject (AuthData.token auth_data) in
  let* user := crud_user_get_by_id user_id in
  match user with
  | None => _raise_integrity_check_error
  | Some user =>
      if negb (Z.eqb (UserSession.owner_id (AuthData.session auth_data)) (User.id user))
      then _raise_integrity_check_error
      else if negb (User.is_active user) && negb allow_deactivated
      then raise user_deactivated_error
      else
        let* user :=
          (if trigger_online_update then update_time_online user_id user
           else ret user) in
        ret (AuthData.set_user user auth_data)
  end.

Definition query_auth_data_from_token (token : string) (only_session_token : bool)
    (required_permissions : Required perms) (allow_deactivated : bool)
    (allow_external_clients : bool) (trigger_online_update : bool)
    (request : option Request.t) : M (AuthData.t perms) :=
  let token_type := if only_session_token then SessionToken else AccessToken in
  let* auth_data :=
    _decode_token token token_type required_permissions request
      allow_external_clients in
  let* _ :=
    (if only_session_token
        && negb (String.eqb (BaseToken.get_type (AuthData.token auth_data))
                   (class_get_type SessionToken))
     then _raise_integrity_check_error
     else ret tt) in
  _query_auth_data auth_data allow_deactivated trigger_online_update.

Definition query_auth_data_from_request (req : Request.t) (only_session_token : bool)
    (required_permissions : Required perms) (allow_deactivated : bool)
    (allow_external_clients : bool) (trigger_online_update : bool)
  : M (AuthData.t perms) :=
  let token := _get_token_from_request req only_session_token in
  query_auth_data_from_token token only_session_token required_permissions
    allow_deactivated allow_external_clients trigger_online_update (Some req).

Definition try_query_auth_data_from_request (req : Request.t)
    (only_session_token : bool) (required_permissions : Required perms)
    (allow_deactivated : bool) (allow_external_clients : bool)
  : M (bool * option (AuthData.t perms)) :=
  try_except_ApiErrorException
    (let* auth_data := query_auth_data_from_request req only_session_token
                   required_permissions allow_deactivated allow_external_clients
                   true in
     ret (true, Some auth_data))
    (ret (false, None)).

End Pipeline.

End Auth.
Export Auth.

(** ** [api/app/services/validators/user.py], sign-up *)
Module SignupValidators.

(** The settings [validate_signup_fields] reads from [get_settings()]. *)
Record Settings := mkSettings {
  signup_validate_email : bool;
  signup_username_reject_nonalpha : bool;
  signup_username_reject_uppercase : bool;
}.

(** A [str] is held as its UTF-8 bytes.  A byte [10xxxxxx] continues a
    character; every other byte begins one. *)
Definition utf8_continuation (c : ascii) : bool :=
  let n := Ascii.nat_of_ascii c in (128 <=? n)%nat && (n <? 192)%nat.

(** [len(s)]: the number of characters (code points) of the string. *)
Fixpoint str_len (s : string) : nat :=
  match s with
  | EmptyString => 0
  | String c s' => if utf8_continuation c then str_len s' else S (str_len s')
  end.

Section Signup.

Variable settings : Settings.

(** [crud.user.email_is_taken(db=db, email=email)] and
    [crud.user.username_is_taken(db=db, username=username)]. *)
Variable email_is_taken : string → bool.
Variable username_is_taken : string → bool.

(** [validate_email(email, verify=False)] of the [validate_email] package. *)
Variable validate_email : string → bool.

(** Python's [str.isalpha] and [str.islower]. *)
Variable isalpha : string → bool.
Variable islower : string → bool.

Definition signup_error (code : ApiErrorCode) (message : string) : Exception :=
  ApiErrorException code message None.

Definition validate_signup_fields (username email password : string) : Result unit :=
  if email_is_taken email
  then Raise (signup_error AUTH_EMAIL_TAKEN "Given email is already taken!")
  else if username_is_taken username
  then Raise (signup_error AUTH_USERNAME_TAKEN "Given username is already taken!")
  else if signup_validate_email settings && negb (validate_email email)
  then Raise (signup_error AUTH_EMAIL_INVALID "Email invalid!")
  else if (str_len username <=? 4)%nat
  then Raise (signup_error AUTH_USERNAME_INVALID "Username should be longer than 4!")
  else if (16 <? str_len username)%nat
  then Raise (signup_error AUTH_USERNAME_INVALID "Username should be shorten than 16!")
  else if signup_username_reject_nonalpha settings && negb (isalpha username)
  then Raise (signup_error AUTH_USERNAME_INVALID
                "Username should only contain alphabet characters!")
  else if signup_username_reject_uppercase settings && negb (islower username)
  then Raise (signup_error AUTH_USERNAME_INVALID
                "Username should only contain lowercase characters!")
  else if (str_len password <=? 5)%nat
  then Raise (signup_error AUTH_PASSWORD_INVALID "Password should be longer than 5!")
  else if (64 <? str_len password)%nat
  then Raise (signup_error AUTH_PASSWORD_INVALID "Password should be shorten than 64!")
  else Ok tt.

End Signup.

End SignupValidators.
Export SignupValidators.

(** ** [api/app/serializers/user.py] *)
Module Serializers.

(** A value of an API response.  [JTime d] is the float that
    [time.mktime(d.timetuple())] gives for the datetime [d]; a [dict] keeps
    its items in insertion order. *)
#[local] Set Warnings "-register-all".
Inductive Json :=
| JNone
| JBool (b : bool)
| JInt (z : Z)
| JStr (s : string)
| JTime (datetime : Z)
| JDict (items : list (string * Json)).

(** [d[key]] when the key is there. *)
Fixpoint dict_get (key : string) (d : list (string * Json)) : option Json :=
  match d with
  | [] => None
  | (k, v) :: d' => if String.eqb k key then Some v else dict_get key d'
  end.

(** [d[key] = value]: an existing key keeps its place, a new one goes last. *)
Fixpoint dict_set (key : string) (value : Json) (d : list (string * Json))
  : list (string * Json) :=
  match d with
  | [] => [(key, value)]
  | (k, v) :: d' =>
      if String.eqb k key then (k, value) :: d' else (k, v) :: dict_set key value d'
  end.

(** [d[outer][key] = value] for a [dict] stored under [outer]. *)
Definition dict_set_in (outer key : string) (value : Json)
    (d : list (string * Json)) : list (string * Json) :=
  match dict_get outer d with
  | Some (JDict inner) => dict_set outer (JDict (dict_set key value inner)) d
  | _ => d
  end.

(** The keys of a [dict], in order. *)
Definition dict_keys (d : list (string * Json)) : list string := map fst d.

(** The columns and methods of a user row that [serialize] reads besides those
    of [User.t]. *)
Module UserProfile.
Record t := mk {
  avatar : Json;
  first_name : Json;
  last_name : Json;
  is_female : bool;
  profile_bio : Json;
  profile_website : Json;
  profile_social_username_vk : Json;
  profile_social_username_tg : Json;
  profile_social_username_gh : Json;
  privacy_profile_public : Json;
  privacy_profile_require_auth : Json;
  time_created : Z;
}.
End UserProfile.

Definition serialize (user : User.t) (profile : UserProfile.t)
    (include_email include_optional_fields include_private_fields
       include_profile_fields : bool) : list (string * Json) :=
  let serialized_user :=
    [ ("id", JInt (User.id user));
      ("username", JStr (User.username user));
      ("avatar", UserProfile.avatar profile);
      ("first_name", UserProfile.first_name profile);
      ("last_name", UserProfile.last_name profile);
      ("sex", JInt (if UserProfile.is_female profile then 0 else 1)) ] in
  let serialized_user :=
    if include_profile_fields then
      dict_set "profile"
        (JDict
           [ ("bio", UserProfile.profile_bio profile);
             ("website", UserProfile.profile_website profile);
             ("socials",
              JDict [ ("vk", UserProfile.profile_social_username_vk profile);
                      ("tg", UserProfile.profile_social_username_tg profile);
                      ("gh", UserProfile.profile_social_username_gh profile) ]);
             ("privacy",
              JDict [ ("is_public", UserProfile.privacy_profile_public profile);
                      ("auth_required",
                       UserProfile.privacy_profile_require_auth profile) ]) ])
        serialized_user
    else serialized_user in
  let serialized_user :=
    if include_email && include_private_fields
    then dict_set "email" (JStr (User.email user)) serialized_user
    else serialized_user in
  let serialized_user :=
    if include_optional_fields then
      let time_online := User.time_online user in
      let serialized_user :=
        dict_set "time_created" (JTime (UserProfile.time_created profile))
          serialized_user in
      let serialized_user :=
        dict_set "time_online"
          (match time_online with
           | Some t => JTime t
           | None => JNone
           end) serialized_user in
      let serialized_user :=
        dict_set "states"
          (JDict [ ("is_active", JBool (User.is_active user));
                   ("is_vip", JBool (User.is_vip user)) ]) serialized_user in
      if include_private_fields then
        let serialized_user :=
          if User.is_admin user
          then dict_set_in "states" "is_admin" (JBool (User.is_admin user))
                 serialized_user
          else serialized_user in
        dict_set_in "states" "is_confirmed" (JBool (User.is_verified user))
          serialized_user
      else serialized_user
    else serialized_user in
  [("user", JDict serialized_user)].

(** The [dict] under ["user"] of a serialized user. *)
Definition serialized_user_of (response : list (string * Json))
  : list (string * Json) :=
  match dict_get "user" response with
  | Some (JDict d) => d
  | _ => []
  end.

End Serializers.
Export Serializers.

(** ** [api/app/routers/email.py], [method_email_confirmation_confirm] *)
Module EmailRouter.

(** [api_error(code, message)] and [api_success(data)] of
    [app.services.api.response]. *)
Inductive JSONResponse :=
| api_error (code : ApiErrorCode) (message : string)
| api_success (data : list (string * Json)).

(** A task handed to [background_tasks]:
    [messages.send_verification_end_email(background_tasks, email, mention)]. *)
Inductive Mail :=
| VerificationEndEmail (email mention : string).

Section Confirm.

(** [EmailToken.decode(cft, key=key)]. *)
Variable EmailToken_decode : string → string → Result BaseToken.t.

(** [settings.cft_secret]. *)
Variable cft_secret : string.

(** [crud.user.email_confirm(db, user)]: the users table and the user object
    after the call. *)
Variable email_confirm : gmap Z User.t → User.t → gmap Z User.t * User.t.

(** [user.get_mention()]. *)
Variable get_mention : User.t → string.

(** The response, the users table and the mail tasks added; [Raise] when an
    exception leaves the endpoint. *)
Definition method_email_confirmation_confirm (cft : string)
    (db_users : gmap Z User.t)
  : Result (JSONResponse * gmap Z User.t * list Mail) :=
  match EmailToken_decode cft cft_secret with
  | Raise TokenInvalidError | Raise TokenInvalidSignatureError =>
      Ok (api_error EMAIL_CONFIRMATION_TOKEN_INVALID
            "Confirmation token not valid, mostly due to corrupted link. Try resend confirmation again.",
          db_users, [])
  | Raise TokenExpiredError =>
      Ok (api_error EMAIL_CONFIRMATION_TOKEN_INVALID
            "Confirmation token expired. Try resend confirmation again.",
          db_users, [])
  | Raise TokenWrongTypeError =>
      Ok (api_error EMAIL_CONFIRMATION_TOKEN_INVALID
            "Expected token to be a confirmation token, not another type of token.",
          db_users, [])
  | Raise e => Raise e
  | Ok email_token =>
      match db_users !! BaseToken.get_subject email_token with
      | None =>
          Ok (api_error EMAIL_CONFIRMATION_USER_NOT_FOUND
                ("Confirmation token has been issued for email, that does not refers to any existing user! "
                   +:+ "Did you updated your account email address?"),
              db_users, [])
      | Some user =>
          if User.is_verified user
          then Ok (api_error EMAIL_CONFIRMATION_ALREADY_CONFIRMED
                     "Confirmation not required. You already confirmed your email!",
                   db_users, [])
          else
            let '(db_users, user) := email_confirm db_users user in
            Ok (api_success [ ("email", JStr (User.email user));
                              ("confirmed", JBool true) ],
                db_users,
                [VerificationEndEmail (User.email user) (get_mention user)])
      end
  end.

End Confirm.

End EmailRouter.
Export EmailRouter.

(** ** A small deployment to run the pipeline on *)
Module Sample.

(** An instance of [ApiPermissions] to run the pipeline on: an enum with the
    members [auth.py] and [routers/admin.py] name and the one of the auth
    service, and a parser that keeps the names of members, in order. *)
Inductive Permission :=
| oauth_clients
| admin
| noexpire.

#[global] Instance Permission_eq_dec : EqDecision Permission.
Proof. solve_decision. Defined.

Definition value (p : Permission) : string :=
  match p with
  | oauth_clients => "oauth_clients"
  | admin => "admin"
  | noexpire => "noexpire"
  end.

Definition of_name (name : string) : option Permission :=
  List.find (λ p, String.eqb (value p) name) [oauth_clients; admin; noexpire].

Definition parse_permissions_from_scope (scope : string) : Result (list Permission) :=
  Ok (omap of_name (str_split "," scope)).

Definition perms : ApiPermissions.t :=
  ApiPermissions.mk Permission Permission_eq_dec value noexpire
    parse_permissions_from_scope.

Definition alice : User.t :=
  User.mk 1 "alice" "alice@example.org" "hash-of-alice" true false false true None.

(** A deactivated user. *)
Definition bob : User.t :=
  User.mk 2 "bobby" "bob@example.org" "hash-of-bob" false false false true None.

Definition session10 : UserSession.t := UserSession.mk 10 1 "key10" true.

(** A session closed by logout. *)
Definition session11 : UserSession.t := UserSession.mk 11 1 "key11" false.

Definition session12 : UserSession.t := UserSession.mk 12 2 "key12" true.

Definition world : World :=
  mkWorld (<[10%Z := session10]> (<[11%Z := session11]> (<[12%Z := session12]> ∅)))
          (<[1%Z := alice]> (<[2%Z := bob]> ∅))
          [].

(** The tokens in circulation: the string, its payload, and the key it was
    signed with. *)
Definition issued : list (string * (BaseToken.t * string)) :=
  [ ("tok-alice", (BaseToken.mk "access" 1 (PyInt 10) "oauth_clients" false, "key10"));
    ("tok-plain", (BaseToken.mk "access" 1 (PyInt 10) "" false, "key10"));
    ("tok-trusted", (BaseToken.mk "access" 1 (PyInt 10) "noexpire" false, "key10"));
    ("tok-closed", (BaseToken.mk "access" 1 (PyInt 11) "" false, "key11"));
    ("tok-ghost", (BaseToken.mk "access" 1 (PyInt 99) "" false, "key99"));
    ("tok-badsid", (BaseToken.mk "access" 1 (PyStr "ten") "" false, "key10"));
    ("tok-nouser", (BaseToken.mk "access" 7 (PyInt 10) "" false, "key10"));
    ("tok-stolen", (BaseToken.mk "access" 2 (PyInt 10) "" false, "key10"));
    ("tok-bob", (BaseToken.mk "access" 2 (PyInt 12) "" false, "key12"));
    ("tok-session", (BaseToken.mk "session" 1 (PyInt 10) "" false, "key10")) ].

(** A table codec: an unknown string is invalid, ["tok-expired"] is expired, a
    payload of another kind is of the wrong type, and the signature is valid
    exactly under the key the token was signed with. *)
Definition codec (key : option string) (cls : TokenClass) (token : string)
  : Result BaseToken.t :=
  if String.eqb token "tok-expired" then Raise TokenExpiredError
  else
    match List.find (λ entry, String.eqb entry.1 token) issued with
    | None => Raise TokenInvalidError
    | Some (_, (payload, signed_with)) =>
        if negb (String.eqb (BaseToken.get_type payload) (class_get_type cls))
        then Raise TokenWrongTypeError
        else Ok (BaseToken.mk (BaseToken.get_type payload)
                   (BaseToken.get_subject payload)
                   (BaseToken.get_session_id payload)
                   (BaseToken.get_scope payload)
                   (match key with
                    | Some key => String.eqb key signed_with
                    | None => false
                    end))
    end.

Definition ext : Collaborators :=
  mkCollaborators (codec None) (λ cls token key, codec (Some key) cls token)
    (λ _ _, Ok tt) 1700000000.

(** A request with the given [Authorization] header and query parameters;
    of a parameter given twice the last value counts. *)
Definition request (authorization : option string)
    (params : list (string * string)) : Request.t :=
  Request.mk
    (match authorization with
     | Some h => {[ "Authorization" := h ]}
     | None => ∅
     end)
    (list_to_map (reverse params)).

End Sample.

(** ** Further sample data *)
Module Demo.

(** The sample deployment after session 10 got a new secret. *)
Definition world_rotated : World :=
  mkWorld (<[10%Z := UserSession.mk 10 1 "rotated" true]>
             (db_user_sessions Sample.world))
          (db_users Sample.world) [].

(** The collaborators of the sample deployment with a client check that
    refuses every request not sent by the client the session was opened
    with. *)
Definition suspicious_client_error : Exception :=
  ApiErrorException API_FORBIDDEN "Suspicious client!" None.

Definition strict_ext : Collaborators :=
  mkCollaborators (decode_unsigned Sample.ext) (decode Sample.ext)
    (λ _ request,
       if String.eqb (Request.get (Request.headers request) "User-Agent")
            "alice-laptop"
       then Ok tt else Raise suspicious_client_error)
    (datetime_now Sample.ext).

(** A user who has not confirmed her email yet. *)
Definition carol : User.t :=
  User.mk 3 "carol" "carol@example.org" "hash-of-carol" true true false false
    (Some 1600000000%Z).

Definition users : gmap Z User.t := <[3%Z := carol]> (db_users Sample.world).


(** Confirmation tokens: ["cft-carol"] is carol's, ["cft-alice"] alice's,
    ["cft-nobody"] names no user, ["cft-old"] is expired. *)
Definition EmailToken_decode (cft key : string) : Result BaseToken.t :=
  if String.eqb cft "cft-old" then Raise TokenExpiredError
  else if negb (String.eqb key "cft-secret") then Raise TokenInvalidSignatureError
  else if String.eqb cft "cft-carol"
  then Ok (BaseToken.mk "email" 3 PyNone "" true)
  else if String.eqb cft "cft-alice"
  then Ok (BaseToken.mk "email" 1 PyNone "" true)
  else if String.eqb cft "cft-nobody"
  then Ok (BaseToken.mk "email" 404 PyNone "" true)
  else Raise TokenInvalidError.

(** Confirming sets the verified flag of the row. *)
Definition email_confirm (db_users : gmap Z User.t) (user : User.t)
  : gmap Z User.t * User.t :=
  let user' :=
    User.mk (User.id user) (User.username user) (User.email user)
      (User.password user) (User.is_active user) (User.is_admin user)
      (User.is_vip user) true (User.time_online user) in
  (<[User.id user := user']> db_users, user').

Definition get_mention (user : User.t) : string := "@" +:+ User.username user.

(** Sign-up: every check switched on, two names taken, and character tests
    for the letters [a]..[z]. *)
Definition settings : Settings := mkSettings true true true.

Definition email_is_taken (email : string) : bool :=
  String.eqb email "alice@example.org".

Definition username_is_taken (username : string) : bool :=
  String.eqb username "alice".

Fixpoint all_lowercase_letters (s : string) : bool :=
  match s with
  | EmptyString => true
  | String c s' =>
      (97 <=? Ascii.nat_of_ascii c)%nat && (Ascii.nat_of_ascii c <=? 122)%nat
      && all_lowercase_letters s'
  end.

Definition isalpha (s : string) : bool := str_truthy s && all_lowercase_letters s.

Definition validate_email (email : string) : bool := str_mem "@" email.

End Demo.

(** * Properties *)

(** ** Splitting and joining strings *)
Section StringFacts.

Variable sep : ascii.

Lemma str_split_not_nil (s : string) : str_split sep s ≠ [].
Proof.
  destruct s as [|c s]; simpl; [done|].
  destruct (Ascii.eqb c sep); [done|].
  by destruct (str_split sep s).
Qed.

Lemma str_join_cons (j x y : string) (l : list string) :
  str_join j (x :: y :: l) = x +:+ j +:+ str_join j (y :: l).
Proof. reflexivity. Qed.

(** Joining the pieces with the separator gives the string back. *)
Lemma str_join_split (s : string) :
  str_join (String sep EmptyString) (str_split sep s) = s.
Proof.
  induction s as [|c s IH]; [done|].
  simpl str_split. destruct (Ascii.eqb_spec c sep) as [->|Hne].
  - pose proof (str_split_not_nil s) as Hnil.
    destruct (str_split sep s) as [|t ts] eqn:E; [done|].
    rewrite str_join_cons, IH. reflexivity.
  - destruct (str_split sep s) as [|t ts] eqn:E.
    + by destruct (str_split_not_nil s).
    + destruct ts as [|t' ts].
      * simpl in *. by rewrite IH.
      * rewrite str_join_cons. rewrite str_join_cons in IH.
        simpl. by rewrite <- IH.
Qed.

(** No piece contains the separator. *)
Lemma str_split_sep_free (s : string) :
  Forall (λ t, str_mem sep t = false) (str_split sep s).
Proof.
  induction s as [|c s IH]; simpl.
  - by constructor.
  - destruct (Ascii.eqb c sep) eqn:Ec.
    + by constructor.
    + destruct (str_split sep s) as [|t ts].
      * constructor; [|done]. simpl. by rewrite Ec.
      * inversion_clear IH as [|? ? Ht Hts].
        constructor; [|done]. simpl. by rewrite Ec.
Qed.

Lemma str_split_app (t r : string) :
  str_mem sep t = false →
  str_split sep (t +:+ String sep r) = t :: str_split sep r.
Proof.
  induction t as [|c t IH]; simpl; intros Hfree.
  - by rewrite Ascii.eqb_refl.
  - apply orb_false_iff in Hfree as [Hc Ht].
    rewrite Hc. fold (t +:+ String sep r). by rewrite (IH Ht).
Qed.

Lemma str_split_one (t : string) :
  str_mem sep t = false → str_split sep t = [t].
Proof.
  induction t as [|c t IH]; simpl; intros Hfree; [done|].
  apply orb_false_iff in Hfree as [Hc Ht].
  by rewrite Hc, (IH Ht).
Qed.

End StringFacts.

(** ** Scopes *)
Section ScopeFacts.

Lemma value_sep_free (p : Permission) :
  str_mem SCOPE_PERMISSION_SEPARATOR (value p) = false.
Proof. by destruct p. Qed.

Lemma Permission_getitem_value (p : Permission) :
  Permission_getitem (value p) = Ok p.
Proof. by destruct p. Qed.

Lemma scope_token_kept_true (t : string) :
  scope_token_kept t = true ↔ t ∈ SCOPE_ALLOWED_PERMISSIONS ∧ t ≠ "".
Proof.
  unfold scope_token_kept. rewrite andb_true_iff, bool_decide_eq_true.
  split; intros [Hin Hne]; split; try done.
  - by intros ->.
  - by destruct t.
Qed.

Lemma scope_token_kept_value (p : Permission) : scope_token_kept (value p) = true.
Proof. by destruct p. Qed.

Lemma allowed_is_value (t : string) :
  t ∈ SCOPE_ALLOWED_PERMISSIONS → ∃ p, t = value p.
Proof.
  unfold SCOPE_ALLOWED_PERMISSIONS. intros Hin.
  apply list_elem_of_fmap in Hin as (p & -> & _). by exists p.
Qed.

(** A comprehension over kept tokens never meets a [KeyError]. *)
Lemma rmap_getitem_kept (tokens : list string) :
  ∃ permissions,
    rmap Permission_getitem (List.filter scope_token_kept tokens) = Ok permissions ∧
    map value permissions =
      filter (λ t, t ∈ SCOPE_ALLOWED_PERMISSIONS ∧ t ≠ "") tokens.
Proof.
  induction tokens as [|t tokens (ps & Hps & Hnames)]; [by exists []|].
  simpl List.filter. rewrite filter_cons.
  destruct (scope_token_kept t) eqn:Hkept.
  - pose proof (proj1 (scope_token_kept_true t) Hkept) as Ht.
    rewrite decide_True by done.
    destruct (allowed_is_value t (proj1 Ht)) as [p ->].
    exists (p :: ps). simpl. rewrite Permission_getitem_value. simpl.
    rewrite Hps. simpl. by rewrite Hnames.
  - rewrite decide_False; [by exists ps|].
    intros Ht. apply scope_token_kept_true in Ht. congruence.
Qed.

Lemma parse_permissions_from_scope_ok (scope : string) :
  ∃ permissions,
    parse_permissions_from_scope scope = Ok permissions ∧
    map value permissions =
      filter (λ t, t ∈ SCOPE_ALLOWED_PERMISSIONS ∧ t ≠ "")
        (str_split SCOPE_PERMISSION_SEPARATOR scope).
Proof. apply rmap_getitem_kept. Qed.

(** Parsing the canonical join of a permission list gives the list back. *)
Lemma parse_join_values (permissions : list Permission) :
  parse_permissions_from_scope
    (str_join (String SCOPE_PERMISSION_SEPARATOR EmptyString) (map value permissions))
  = Ok permissions.
Proof.
  induction permissions as [|p ps IH]; [done|].
  destruct ps as [|q ps].
  - by destruct p.
  - change (map value (p :: q :: ps)) with (value p :: value q :: map value ps).
    rewrite str_join_cons.
    change (value q :: map value ps) with (map value (q :: ps)).
    unfold parse_permissions_from_scope in *.
    remember (str_join _ (map value (q :: ps))) as rest eqn:Hrest.
    change (String SCOPE_PERMISSION_SEPARATOR "" +:+ rest)
      with (String SCOPE_PERMISSION_SEPARATOR rest).
    rewrite str_split_app by apply value_sep_free.
    simpl List.filter. rewrite scope_token_kept_value.
    simpl rmap. rewrite Permission_getitem_value. simpl rbind.
    by rewrite IH.
Qed.

End ScopeFacts.

(** C3, as the code has it: for every scope string,
    [parse_permissions_from_scope] never raises; the names of the permissions
    it returns are exactly the pieces of the comma split of the scope that are
    non-empty names of a permission, in their order and one for each
    occurrence (a name that occurs twice is returned twice); unrecognised and
    empty pieces are dropped.  The pieces are those of the split on the comma:
    joined with commas they give the scope back and none contains a comma.
    In particular ["oauth_clients,bogus,"] yields exactly [oauth_clients]. *)
Theorem parse_permissions_from_scope_keeps_recognised (scope : string) :
  let pieces := str_split SCOPE_PERMISSION_SEPARATOR scope in
  (∃ permissions,
     parse_permissions_from_scope scope = Ok permissions ∧
     map value permissions =
       filter (λ t, t ∈ SCOPE_ALLOWED_PERMISSIONS ∧ t ≠ "") pieces) ∧
  str_join (String SCOPE_PERMISSION_SEPARATOR EmptyString) pieces = scope ∧
  Forall (λ t, str_mem SCOPE_PERMISSION_SEPARATOR t = false) pieces ∧
  parse_permissions_from_scope "oauth_clients,bogus," = Ok [oauth_clients].
Proof.
  intros pieces. split; [apply parse_permissions_from_scope_ok|].
  split; [apply str_join_split|].
  split; [apply str_split_sep_free|reflexivity].
Qed.

(** C3, as stated, fails: a permission named twice in the scope is returned
    twice, so duplicates are not removed. *)
Lemma parse_permissions_from_scope_keeps_duplicates :
  parse_permissions_from_scope "oauth_clients,oauth_clients"
    = Ok [oauth_clients; oauth_clients] ∧
  ¬ NoDup [oauth_clients; oauth_clients].
Proof.
  split; [reflexivity|].
  intros Hnd. apply NoDup_cons in Hnd as [Hnotin _].
  apply Hnotin. by left.
Qed.

(** C8: [normalize_scope s] is the comma join of the names of
    [parse_permissions_from_scope s]; parsing the normalized scope yields the
    same permission list as parsing [s]; and [normalize_scope] is idempotent. *)
Theorem normalize_scope_canonical (scope : string) :
  ∃ permissions normalized,
    parse_permissions_from_scope scope = Ok permissions ∧
    normalize_scope scope = Ok normalized ∧
    normalized = str_join "," (map value permissions) ∧
    parse_permissions_from_scope normalized = Ok permissions ∧
    normalize_scope normalized = Ok normalized.
Proof.
  destruct (parse_permissions_from_scope_ok scope) as (ps & Hps & _).
  exists ps, (str_join "," (map value ps)).
  pose proof (parse_join_values ps) as Hround.
  change (String SCOPE_PERMISSION_SEPARATOR "") with "," in Hround.
  repeat split; try done.
  - unfold normalize_scope. by rewrite Hps.
  - unfold normalize_scope. by rewrite Hround.
Qed.

(** ** The permission check *)
Section PermissionCheck.

Variable perms : ApiPermissions.t.

Lemma filter_not_held (R H : list perms) :
  List.filter (λ permission, negb (bool_decide (permission ∈ H))) R
  = list_difference R H.
Proof.
  induction R as [|p R IH]; [done|].
  simpl. rewrite IH. unfold decide_rel.
  destruct (list_elem_of_dec p H) as [Hin|Hout].
  - by rewrite bool_decide_eq_true_2.
  - by rewrite bool_decide_eq_false_2.
Qed.

Lemma list_difference_sublist (R H : list perms) :
  sublist (list_difference R H) R.
Proof.
  induction R as [|p R IH]; simpl; [constructor|].
  destruct (decide_rel elem_of p H); by constructor.
Qed.

Lemma required_list_falsy (required : Required perms) :
  required_truthy required = false → required_list required = [].
Proof. by destruct required as [|p|[|p l]]. Qed.

(** What the check computes once the scope is parsed. *)
Lemma query_scope_permissions_parsed (scope : string) (required : Required perms)
    (H : list perms) :
  ApiPermissions.parse_permissions_from_scope perms scope = Ok H →
  _query_scope_permissions perms scope required =
    if decide (list_difference (required_list required) H = []) then Ok H
    else Raise (insufficient_permissions_error
                  (str_join ", "
                     (map (ApiPermissions.value perms)
                        (list_difference (required_list required) H)))).
Proof.
  intros Hparse. unfold _query_scope_permissions. rewrite Hparse.
  cbn [rbind]. rewrite filter_not_held.
  destruct (required_truthy required) eqn:Htruthy; cbn [negb].
  - destruct (decide (list_difference (required_list required) H = []))
      as [Hnil|Hne].
    + by rewrite bool_decide_eq_true_2.
    + by rewrite bool_decide_eq_false_2.
  - rewrite (required_list_falsy required Htruthy). by rewrite decide_True.
Qed.

End PermissionCheck.

(** C5: for every required list [R] and the held list [H] parsed from the
    scope, over whatever enum of permissions, the check computes the
    unsatisfied list [R \ H] in the order of [R]; when it is non-empty the
    check raises InsufficientPermissions whose data carries the joined
    unsatisfied names under ["required_scope"], and when it is empty the held
    permissions are returned unchanged.  Requiring one permission against an
    empty held set carries that permission's name. *)
Theorem query_scope_permissions_unsatisfied (perms : ApiPermissions.t)
    (scope : string) (R H : list perms) :
  ApiPermissions.parse_permissions_from_scope perms scope = Ok H →
  let unsatisfied := list_difference R H in
  let required_scope :=
    str_join ", " (map (ApiPermissions.value perms) unsatisfied) in
  sublist unsatisfied R ∧
  unsatisfied = filter (λ p, p ∉ H) R ∧
  _query_scope_permissions perms scope (ReqList R) =
    (if decide (unsatisfied = []) then Ok H
     else Raise (ApiErrorException AUTH_INSUFFICIENT_PERMISSIONS
            ("Insufficient permissions to call this method! (required scope permissions: "
               +:+ required_scope +:+ ")")
            (Some {[ "required_scope" := required_scope ]}))) ∧
  (∀ p, R = [p] → H = [] →
        ∃ e, _query_scope_permissions perms scope (ReqList R) = Raise e ∧
             api_code_of e = Some AUTH_INSUFFICIENT_PERMISSIONS ∧
             (data_of e ≫= (.!! "required_scope"))
               = Some (ApiPermissions.value perms p)).
Proof.
  intros Hparse unsatisfied required_scope.
  pose proof (query_scope_permissions_parsed perms scope (ReqList R) H Hparse)
    as Hcheck.
  split; [apply list_difference_sublist|].
  split.
  { subst unsatisfied. clear. induction R as [|p R IH]; [done|].
    rewrite filter_cons. cbn [list_difference]. unfold decide_rel.
    destruct (decide (p ∉ H)) as [Hn|Hn];
      destruct (list_elem_of_dec p H) as [Hin|Hout].
    - by destruct (Hn Hin).
    - by rewrite IH.
    - exact IH.
    - by destruct (Hn Hout). }
  split; [exact Hcheck|].
  intros p -> ->. rewrite Hcheck. simpl.
  unfold decide_rel. destruct (list_elem_of_dec p []) as [Hin|_].
  - by apply elem_of_nil in Hin.
  - eexists. split; [done|]. split; [done|].
    simpl. by rewrite lookup_singleton_eq.
Qed.

(** Three permissions required in the sample enum, one of them held: the two
    others are reported, in the order they were required. *)
Lemma query_scope_permissions_unsatisfied_witness :
  let R := [Sample.admin; Sample.oauth_clients; Sample.noexpire] in
  let H := [Sample.oauth_clients] in
  sublist [Sample.admin; Sample.noexpire] R ∧
  [Sample.admin; Sample.noexpire] = filter (λ p, p ∉ H) R ∧
  _query_scope_permissions Sample.perms "oauth_clients" (ReqList R) =
    Raise (ApiErrorException AUTH_INSUFFICIENT_PERMISSIONS
             "Insufficient permissions to call this method! (required scope permissions: admin, noexpire)"
             (Some {[ "required_scope" := "admin, noexpire" ]})) ∧
  (∀ p, R = [p] → H = [] →
        ∃ e, _query_scope_permissions Sample.perms "oauth_clients" (ReqList R)
               = Raise e ∧
             api_code_of e = Some AUTH_INSUFFICIENT_PERMISSIONS ∧
             (data_of e ≫= (.!! "required_scope")) = Some (Sample.value p)).
Proof.
  apply (query_scope_permissions_unsatisfied Sample.perms "oauth_clients"
           [Sample.admin; Sample.oauth_clients; Sample.noexpire]
           [Sample.oauth_clients]).
  reflexivity.
Defined.

(** Requiring [oauth_clients] against the empty scope in the sample enum:
    [required_scope] is ["oauth_clients"]. *)
Example query_scope_permissions_oauth_clients :
  ∃ e, _query_scope_permissions Sample.perms "" (ReqList [Sample.oauth_clients])
         = Raise e ∧
       api_code_of e = Some AUTH_INSUFFICIENT_PERMISSIONS ∧
       (data_of e ≫= (.!! "required_scope")) = Some "oauth_clients".
Proof. eexists. split; [reflexivity|]. by split. Qed.

(** ** Sign-in validation *)

(** C7: for every password, [validate_signin_fields] raises one and the same
    InvalidCredentials error (code, message and data) when the user does not
    exist and when the user exists but the password does not match the stored
    hash; when the user exists and the password matches it raises nothing. *)
Theorem validate_signin_fields_same_error (check_password : string → string → bool)
    (u : User.t) (password : string) :
  validate_signin_fields check_password None password
    = Raise (ApiErrorException AUTH_INVALID_CREDENTIALS
               "Invalid credentials for authentication." None) ∧
  (check_password password (User.password u) = false →
   validate_signin_fields check_password (Some u) password
     = validate_signin_fields check_password None password) ∧
  (check_password password (User.password u) = true →
   validate_signin_fields check_password (Some u) password = Ok tt).
Proof.
  unfold validate_signin_fields.
  split; [done|]. split; intros ->; done.
Qed.

(** ** The pipeline *)
Section PipelineFacts.

Variable perms : ApiPermissions.t.
Variable ext : Collaborators.

Lemma bind_Ok_inv {A B} (m : M A) (k : A → M B) (w w' : World) (b : B) :
  bind m k w = (Ok b, w') →
  ∃ a w1, m w = (Ok a, w1) ∧ k a w1 = (Ok b, w').
Proof.
  unfold bind. destruct (m w) as [[a|e] w1]; [|done].
  intros Hk. by exists a, w1.
Qed.

Lemma bind_Raise {A B} (m : M A) (k : A → M B) (w w' : World) (e : Exception) :
  m w = (Raise e, w') → bind m k w = (Raise e, w').
Proof. unfold bind. by intros ->. Qed.

(** A session that [_query_session_from_sid] returns is the stored, active
    session of an integer id. *)
Lemma query_session_from_sid_Ok (session_id : PyValue) (request : option Request.t)
    (allow : bool) (w w' : World) (session : UserSession.t) :
  _query_session_from_sid ext session_id request allow w = (Ok session, w') →
  ∃ z, session_id = PyInt z ∧
       db_user_sessions w !! z = Some session ∧
       UserSession.is_active session = true ∧
       same_db w w'.
Proof.
  destruct session_id as [z| |]; simpl; [|done..].
  intros Hrun. apply bind_Ok_inv in Hrun as (found & w1 & Hget & Hrest).
  unfold crud_user_session_get_by_id in Hget. injection Hget as <- <-.
  destruct (db_user_sessions w !! z) as [s|] eqn:Hz; [|done].
  destruct (UserSession.is_active s) eqn:Hactive; [|done].
  simpl in Hrest. exists z.
  destruct allow, request as [req|]; simpl in Hrest.
  - injection Hrest as <- <-. by repeat split.
  - injection Hrest as <- <-. by repeat split.
  - apply bind_Ok_inv in Hrest as ([] & w2 & Hcheck & Hret).
    unfold call_session_check_client in Hcheck.
    injection Hcheck as _ <-. injection Hret as <- <-. by repeat split.
  - injection Hrest as <- <-. by repeat split.
Qed.

(** An integrity failure of the session lookup. *)
Lemma query_session_from_sid_not_int (session_id : PyValue)
    (request : option Request.t) (allow : bool) (w : World) :
  (∀ z, session_id ≠ PyInt z) →
  _query_session_from_sid ext session_id request allow w
    = (Raise integrity_check_error, w).
Proof. destruct session_id as [z| |]; [intros Hz; by destruct (Hz z)|done..]. Qed.

Lemma query_session_from_sid_missing (z : Z) (request : option Request.t)
    (allow : bool) (w : World) :
  db_user_sessions w !! z = None →
  _query_session_from_sid ext (PyInt z) request allow w
    = (Raise integrity_check_error, log (EvSessionGetById z) w).
Proof.
  intros Hnone. simpl. unfold bind, crud_user_session_get_by_id.
  by rewrite Hnone.
Qed.

Lemma query_session_from_sid_closed (z : Z) (request : option Request.t)
    (allow : bool) (w : World) (s : UserSession.t) :
  db_user_sessions w !! z = Some s →
  UserSession.is_active s = false →
  _query_session_from_sid ext (PyInt z) request allow w
    = (Raise session_closed_error, log (EvSessionGetById z) w).
Proof.
  intros Hsome Hclosed. simpl. unfold bind, crud_user_session_get_by_id.
  by rewrite Hsome, Hclosed.
Qed.

(** What a successful [_decode_token] has established. *)
Lemma decode_token_Ok (token : string) (cls : TokenClass)
    (required : Required perms) (request : option Request.t) (allow : bool)
    (w w' : World) (a : AuthData.t perms) :
  _decode_token perms ext token cls required request allow w = (Ok a, w') →
  ∃ z,
    db_user_sessions w !! z = Some (AuthData.session a) ∧
    UserSession.is_active (AuthData.session a) = true ∧
    decode ext cls token (UserSession.token_secret (AuthData.session a))
      = Ok (AuthData.token a) ∧
    BaseToken.signature_is_valid (AuthData.token a) = true ∧
    same_db w w'.
Proof.
  unfold _decode_token.
  destruct (negb (bool_decide (cls = AccessToken))
            && negb (bool_decide (cls = SessionToken))); [done|].
  destruct (negb (str_truthy token)); [done|].
  intros Hrun.
  apply bind_Ok_inv in Hrun as (unsigned & w1 & Hunsigned & Hrun).
  unfold call_decode_unsigned in Hunsigned. injection Hunsigned as _ <-.
  apply bind_Ok_inv in Hrun as (held & w2 & Hheld & Hrun).
  unfold lift in Hheld. injection Hheld as _ <-.
  cbv zeta in Hrun.
  apply bind_Ok_inv in Hrun as (session & w4 & Hsession & Hrun).
  apply query_session_from_sid_Ok in Hsession as (z & _ & Hz & Hactive & Hdb).
  apply bind_Ok_inv in Hrun as (signed & w5 & Hsigned & Hrun).
  unfold call_decode in Hsigned. injection Hsigned as Hsigned <-.
  destruct (BaseToken.signature_is_valid signed) eqn:Hvalid; [|done].
  simpl in Hrun. injection Hrun as <- <-. simpl.
  exists z. repeat split; try done.
  - apply Hdb.
  - apply Hdb.
Qed.

(** What a successful [_query_auth_data] has established. *)
Lemma query_auth_data_Ok (a a' : AuthData.t perms) (allow_deactivated trigger : bool)
    (w w' : World) :
  _query_auth_data perms ext a allow_deactivated trigger w = (Ok a', w') →
  ∃ found,
    db_users w !! BaseToken.get_subject (AuthData.token a) = Some found ∧
    UserSession.owner_id (AuthData.session a) = User.id found ∧
    (User.is_active found = true ∨ allow_deactivated = true) ∧
    a' = AuthData.set_user
           (if trigger then User.set_time_online (datetime_now ext) found
            else found) a.
Proof.
  unfold _query_auth_data. intros Hrun.
  apply bind_Ok_inv in Hrun as (found & w1 & Hget & Hrun).
  unfold crud_user_get_by_id in Hget. injection Hget as <- <-.
  destruct (db_users w !! _) as [u|] eqn:Hu; [|done].
  destruct (Z.eqb_spec (UserSession.owner_id (AuthData.session a)) (User.id u))
    as [Howner|]; [|done].
  simpl in Hrun.
  destruct (negb (User.is_active u) && negb allow_deactivated) eqn:Hgate; [done|].
  apply bind_Ok_inv in Hrun as (u' & w2 & Hupd & Hret).
  injection Hret as <- <-.
  exists u. repeat split; try done.
  - destruct (User.is_active u), allow_deactivated; auto.
  - destruct trigger; simpl in Hupd.
    + unfold update_time_online in Hupd. by injection Hupd as <- _.
    + by injection Hupd as <- _.
Qed.

Lemma query_auth_data_no_user
    (a : AuthData.t perms) (allow_deactivated trigger : bool)
    (w : World) :
  db_users w !! BaseToken.get_subject (AuthData.token a) = None →
  _query_auth_data perms ext a allow_deactivated trigger w
    = (Raise integrity_check_error,
       log (EvUserGetById (BaseToken.get_subject (AuthData.token a))) w).
Proof.
  intros Hnone. unfold _query_auth_data, bind, crud_user_get_by_id.
  by rewrite Hnone.
Qed.

Lemma query_auth_data_owner_mismatch (a : AuthData.t perms)
    (allow_deactivated trigger : bool) (w : World) (u : User.t) :
  db_users w !! BaseToken.get_subject (AuthData.token a) = Some u →
  UserSession.owner_id (AuthData.session a) ≠ User.id u →
  _query_auth_data perms ext a allow_deactivated trigger w
    = (Raise integrity_check_error,
       log (EvUserGetById (BaseToken.get_subject (AuthData.token a))) w).
Proof.
  intros Hsome Hne. unfold _query_auth_data, bind, crud_user_get_by_id.
  rewrite Hsome. apply Z.eqb_neq in Hne. by rewrite Hne.
Qed.

End PipelineFacts.
(** ** Integrity failures *)

(** C1, as the code has it: every integrity failure of the pipeline (a session
    id that is not an integer, a session lookup that finds nothing, a subject
    with no user, a session owner other than the resolved user) raises the one
    [ApiErrorException] with code [AUTH_INVALID_TOKEN] and the message
    "Authentication system integrity check failed!".  That is the class and
    the code of the ordinary invalid-token errors (closed session, invalid
    signature); only the message tells an integrity failure apart. *)
Theorem integrity_failures_raise_invalid_token (perms : ApiPermissions.t)
    (ext : Collaborators) (w : World) :
  (∀ session_id request allow,
     (∀ z, session_id ≠ PyInt z) →
     (_query_session_from_sid ext session_id request allow w).1
       = Raise integrity_check_error) ∧
  (∀ z request allow,
     db_user_sessions w !! z = None →
     (_query_session_from_sid ext (PyInt z) request allow w).1
       = Raise integrity_check_error) ∧
  (∀ a allow_deactivated trigger,
     db_users w !! BaseToken.get_subject (AuthData.token a) = None →
     (_query_auth_data perms ext a allow_deactivated trigger w).1
       = Raise integrity_check_error) ∧
  (∀ a allow_deactivated trigger u,
     db_users w !! BaseToken.get_subject (AuthData.token a) = Some u →
     UserSession.owner_id (AuthData.session a) ≠ User.id u →
     (_query_auth_data perms ext a allow_deactivated trigger w).1
       = Raise integrity_check_error) ∧
  integrity_check_error
    = ApiErrorException AUTH_INVALID_TOKEN
        "Authentication system integrity check failed!" None ∧
  api_code_of session_closed_error = api_code_of integrity_check_error ∧
  api_code_of invalid_signature_error = api_code_of integrity_check_error ∧
  message_of session_closed_error ≠ message_of integrity_check_error ∧
  message_of invalid_signature_error ≠ message_of integrity_check_error.
Proof.
  split; [intros sid request allow Hsid;
          by rewrite query_session_from_sid_not_int|].
  split; [intros z request allow Hnone;
          by rewrite query_session_from_sid_missing|].
  split; [intros a ad tu Hnone; by rewrite query_auth_data_no_user|].
  split; [intros a ad tu u Hsome Hne;
          by rewrite (query_auth_data_owner_mismatch perms ext a ad tu w u)|].
  by repeat split.
Qed.

(** The four integrity failures, each met in the sample deployment. *)
Lemma integrity_failures_raise_invalid_token_witness :
  (_query_session_from_sid Sample.ext (PyStr "ten") None true Sample.world).1
    = Raise integrity_check_error ∧
  (_query_session_from_sid Sample.ext (PyInt 99) None true Sample.world).1
    = Raise integrity_check_error ∧
  (_query_auth_data Sample.perms Sample.ext
     (AuthData.mk (BaseToken.mk "access" 7 (PyInt 10) "" true) Sample.session10
        [] None) false true Sample.world).1
    = Raise integrity_check_error ∧
  (_query_auth_data Sample.perms Sample.ext
     (AuthData.mk (BaseToken.mk "access" 2 (PyInt 10) "" true) Sample.session10
        [] None) false true Sample.world).1
    = Raise integrity_check_error.
Proof.
  destruct (integrity_failures_raise_invalid_token Sample.perms Sample.ext
              Sample.world)
    as (Hsid & Hsession & Huser & Howner & _).
  split; [apply Hsid; discriminate|].
  split; [apply Hsession; reflexivity|].
  split; [apply Huser; reflexivity|].
  apply (Howner _ false true Sample.bob); [reflexivity|discriminate].
Defined.

(** C1, as stated, fails: a token naming a session that does not exist (an
    integrity failure) and a token of a closed session (an ordinary
    invalid-token error) are both answered by an [ApiErrorException] with the
    same code. *)
Lemma integrity_failure_has_invalid_token_code :
  ∃ e_integrity e_closed,
    (query_auth_data_from_token Sample.perms Sample.ext "tok-ghost" false
       ReqNone false true true None Sample.world).1 = Raise e_integrity ∧
    (query_auth_data_from_token Sample.perms Sample.ext "tok-closed" false
       ReqNone false true true None Sample.world).1 = Raise e_closed ∧
    Sample.world.(db_user_sessions) !! 99%Z = None ∧
    (UserSession.is_active <$> Sample.world.(db_user_sessions) !! 11%Z)
      = Some false ∧
    is_ApiErrorException e_integrity = is_ApiErrorException e_closed ∧
    api_code_of e_integrity = api_code_of e_closed ∧
    api_code_of e_closed = Some AUTH_INVALID_TOKEN.
Proof.
  exists integrity_check_error, session_closed_error.
  repeat split; vm_compute; reflexivity.
Qed.

(** ** The client-binding check *)

#[local] Open Scope list_scope.

Section ClientBinding.

Variable perms : ApiPermissions.t.
Variable ext : Collaborators.

Lemma no_client_check_ret {A} (a : A) : no_client_check (ret a).
Proof. intros w. exists []. by rewrite app_nil_r. Qed.

Lemma no_client_check_raise {A} (e : Exception) : no_client_check (@raise A e).
Proof. intros w. exists []. by rewrite app_nil_r. Qed.

Lemma no_client_check_bind {A B} (m : M A) (k : A → M B) :
  no_client_check m → (∀ a, no_client_check (k a)) → no_client_check (bind m k).
Proof.
  intros Hm Hk w. unfold bind. destruct (Hm w) as (t1 & Ht1 & Hn1).
  destruct (m w) as [[a|e] w1]; simpl in *; [|by exists t1].
  destruct (Hk a w1) as (t2 & Ht2 & Hn2).
  exists (t1 ++ t2). rewrite Ht2, Ht1, app_assoc. split; [done|].
  by apply Forall_app.
Qed.

(** What follows the session lookup never calls the client check. *)
Lemma signed_decode_no_client_check (token : string) (cls : TokenClass)
    (permissions : list perms) (session : UserSession.t) :
  no_client_check
    (bind (call_decode ext cls token (UserSession.token_secret session))
       (λ signed_token,
          if negb (BaseToken.signature_is_valid signed_token)
          then raise invalid_signature_error
          else ret (AuthData.mk signed_token session permissions None))).
Proof.
  apply no_client_check_bind.
  { intros w. eexists [_]. split; [done|]. by repeat constructor. }
  intros signed. destruct (negb _);
    [apply no_client_check_raise|apply no_client_check_ret].
Qed.

Lemma query_auth_data_no_client_check (a : AuthData.t perms)
    (allow_deactivated trigger : bool) :
  no_client_check (_query_auth_data perms ext a allow_deactivated trigger).
Proof.
  unfold _query_auth_data. apply no_client_check_bind.
  { intros w. eexists [_]. split; [done|]. by repeat constructor. }
  intros [u|]; [|apply no_client_check_raise].
  destruct (negb (_ =? _)%Z); [apply no_client_check_raise|].
  destruct (negb (User.is_active u) && negb allow_deactivated);
    [apply no_client_check_raise|].
  apply no_client_check_bind; [|intros; apply no_client_check_ret].
  destruct trigger; [|apply no_client_check_ret].
  intros w. exists [EvCommit]. split; [done|]. by repeat constructor.
Qed.

(** [_decode_token] once the scope check has passed: the skip condition is
    the boolean handed to [_query_session_from_sid]. *)
Lemma decode_token_after_scope_check (token : string) (cls : TokenClass)
    (required : Required perms) (request : option Request.t) (allow : bool)
    (w : World) (unsigned : BaseToken.t) (permissions : list perms) :
  cls = AccessToken ∨ cls = SessionToken →
  token ≠ "" →
  decode_unsigned ext cls token = Ok unsigned →
  _query_scope_permissions perms
    (if String.eqb (class_get_type cls) "access"
     then BaseToken.get_scope unsigned else "") required = Ok permissions →
  _decode_token perms ext token cls required request allow w
  = bind (_query_session_from_sid ext (BaseToken.get_session_id unsigned)
            request
            (if negb allow
             then bool_decide (ApiPermissions.noexpire perms ∈ permissions)
             else true))
      (λ session,
         bind (call_decode ext cls token (UserSession.token_secret session))
           (λ signed_token,
              if negb (BaseToken.signature_is_valid signed_token)
              then raise invalid_signature_error
              else ret (AuthData.mk signed_token session permissions None)))
      (log (EvDecodeUnsigned cls token) w).
Proof.
  intros Hcls Htoken Hunsigned Hperms. unfold _decode_token.
  assert (negb (bool_decide (cls = AccessToken))
          && negb (bool_decide (cls = SessionToken)) = false) as ->.
  { by destruct Hcls as [-> | ->]. }
  assert (negb (str_truthy token) = false) as -> by by destruct token.
  unfold bind at 1, call_decode_unsigned. rewrite Hunsigned.
  unfold bind at 1, lift. rewrite Hperms. reflexivity.
Qed.

(** The outcome of [_query_session_from_sid] for a stored, active session. *)
Lemma query_session_from_sid_active (z : Z) (request : option Request.t)
    (allow : bool) (w : World) (s : UserSession.t) :
  db_user_sessions w !! z = Some s →
  UserSession.is_active s = true →
  _query_session_from_sid ext (PyInt z) request allow w
  = match allow, request with
    | false, Some r =>
        (match session_check_client_by_request ext s r with
         | Ok _ => Ok s
         | Raise e => Raise e
         end,
         log (EvSessionCheckClient s r) (log (EvSessionGetById z) w))
    | _, _ => (Ok s, log (EvSessionGetById z) w)
    end.
Proof.
  intros Hs Hactive. simpl. unfold bind, crud_user_session_get_by_id.
  rewrite Hs, Hactive. simpl.
  destruct allow, request as [r|]; simpl; try done.
  unfold call_session_check_client.
  by destruct (session_check_client_by_request ext s r).
Qed.

(** The calls of [_decode_token] once the scope check has passed and the
    session id is an integer: the unsigned decode, the session lookup, the
    client check when the session is stored and active and the check is not
    skipped, and then calls that are no client checks. *)
Lemma decode_token_calls_after_scope_check (token : string) (cls : TokenClass)
    (required : Required perms) (allow : bool)
    (request : option Request.t) (w : World) (unsigned : BaseToken.t)
    (permissions : list perms) (z : Z) :
  let skip := allow || bool_decide (ApiPermissions.noexpire perms ∈ permissions) in
  cls = AccessToken ∨ cls = SessionToken →
  token ≠ "" →
  decode_unsigned ext cls token = Ok unsigned →
  _query_scope_permissions perms
    (if String.eqb (class_get_type cls) "access"
     then BaseToken.get_scope unsigned else "") required = Ok permissions →
  BaseToken.get_session_id unsigned = PyInt z →
  ∃ tail,
    trace (_decode_token perms ext token cls required request allow w).2
    = trace w
        ++ EvDecodeUnsigned cls token :: EvSessionGetById z
           :: lookup_checks w z skip request ++ tail
    ∧ Forall (λ ev, is_client_check ev = false) tail.
Proof.
  intros skip Hcls Htoken Hunsigned Hperms Hsid.
  rewrite (decode_token_after_scope_check token cls required request allow w
             unsigned permissions Hcls Htoken Hunsigned Hperms).
  rewrite Hsid.
  assert ((if negb allow
           then bool_decide (ApiPermissions.noexpire perms ∈ permissions)
           else true) = skip) as -> by (subst skip; by destruct allow).
  unfold bind at 1, lookup_checks.
  destruct (db_user_sessions w !! z) as [s|] eqn:Hs.
  2: { rewrite (query_session_from_sid_missing ext z request skip
                  (log (EvDecodeUnsigned cls token) w) Hs).
       exists []. split; [|done]. simpl. by rewrite <- !app_assoc. }
  destruct (UserSession.is_active s) eqn:Hactive.
  2: { rewrite (query_session_from_sid_closed ext z request skip
                  (log (EvDecodeUnsigned cls token) w) s Hs Hactive).
       exists []. split; [|done]. simpl. by rewrite <- !app_assoc. }
  rewrite (query_session_from_sid_active z request skip
             (log (EvDecodeUnsigned cls token) w) s Hs Hactive).
  unfold checks_of.
  destruct skip, request as [r|]; cbv beta iota;
    try (destruct (signed_decode_no_client_check token cls permissions s
                     (log (EvSessionGetById z)
                        (log (EvDecodeUnsigned cls token) w)))
           as (tail & Htail & Hno);
         exists tail; split; [|done];
         rewrite Htail; simpl; by rewrite <- !app_assoc).
  destruct (session_check_client_by_request ext s r) as [[]|e]; cbv beta iota.
  - destruct (signed_decode_no_client_check token cls permissions s
                (log (EvSessionCheckClient s r)
                   (log (EvSessionGetById z)
                      (log (EvDecodeUnsigned cls token) w))))
      as (tail & Htail & Hno).
    exists tail. split; [|done]. rewrite Htail. simpl. by rewrite <- !app_assoc.
  - exists []. split; [|done]. simpl. by rewrite <- !app_assoc.
Qed.

(** A [_decode_token] that does not get as far as the session lookup makes
    no client check. *)
Lemma decode_token_calls_before_lookup (token : string) (cls : TokenClass)
    (required : Required perms) (allow : bool)
    (request : option Request.t) (w : World) :
  ¬ (∃ unsigned permissions z,
       token ≠ "" ∧ decode_unsigned ext cls token = Ok unsigned ∧
       _query_scope_permissions perms
         (if String.eqb (class_get_type cls) "access"
          then BaseToken.get_scope unsigned else "") required = Ok permissions ∧
       BaseToken.get_session_id unsigned = PyInt z) →
  ∃ e calls,
    _decode_token perms ext token cls required request allow w
    = (Raise e, {| db_user_sessions := db_user_sessions w;
                   db_users := db_users w;
                   trace := trace w ++ calls |})
    ∧ Forall (λ ev, is_client_check ev = false) calls.
Proof.
  intros Hnot. unfold _decode_token.
  destruct (negb (bool_decide (cls = AccessToken))
            && negb (bool_decide (cls = SessionToken))).
  { eexists _, []. rewrite app_nil_r. by destruct w. }
  destruct token as [|c token'] eqn:Htoken.
  { eexists _, []. rewrite app_nil_r. by destruct w. }
  rewrite <- Htoken in *.
  assert (negb (str_truthy token) = false) as -> by by rewrite Htoken.
  unfold bind at 1, call_decode_unsigned.
  destruct (decode_unsigned ext cls token) as [unsigned|e] eqn:Hunsigned.
  2: { eexists _, [_]. split; [done|]. by repeat constructor. }
  unfold bind at 1, lift.
  destruct (_query_scope_permissions perms _ required)
    as [permissions|e] eqn:Hperms.
  2: { eexists _, [_]. split; [done|]. by repeat constructor. }
  destruct (BaseToken.get_session_id unsigned) as [z| |] eqn:Hsid.
  - destruct Hnot. exists unsigned, permissions, z.
    split; [by rewrite Htoken|]. by repeat split.
  - eexists _, [_]. split; [done|]. by repeat constructor.
  - eexists _, [_]. split; [done|]. by repeat constructor.
Qed.

(** Whether a call passes the scope check with an integer session id. *)
Lemma scope_check_passed_dec (token : string) (cls : TokenClass)
    (required : Required perms) :
  let passed :=
    ∃ unsigned permissions z,
      token ≠ "" ∧ decode_unsigned ext cls token = Ok unsigned ∧
      _query_scope_permissions perms
        (if String.eqb (class_get_type cls) "access"
         then BaseToken.get_scope unsigned else "") required = Ok permissions ∧
      BaseToken.get_session_id unsigned = PyInt z in
  passed ∨ ¬ passed.
Proof.
  intros passed. subst passed.
  destruct (decide (token = "")) as [->|Htoken].
  { right. by intros (? & ? & ? & ? & _). }
  destruct (decode_unsigned ext cls token) as [unsigned|e] eqn:Hunsigned.
  2: { right. by intros (? & ? & ? & _ & ? & _). }
  destruct (_query_scope_permissions perms
              (if String.eqb (class_get_type cls) "access"
               then BaseToken.get_scope unsigned else "") required)
    as [permissions|e] eqn:Hperms.
  2: { right. intros (u & p & z & _ & Hu & Hp & _).
       injection Hu as <-. congruence. }
  destruct (BaseToken.get_session_id unsigned) as [z| |] eqn:Hsid.
  - left. by exists unsigned, permissions, z.
  - right. intros (u & p & z & _ & Hu & _ & Hz). injection Hu as <-. congruence.
  - right. intros (u & p & z & _ & Hu & _ & Hz). injection Hu as <-. congruence.
Qed.

(** The calls of the whole pipeline: the client check is among them only as
    the call after the lookup of a stored, active session. *)
Lemma pipeline_calls (token : string) (only_session_token : bool)
    (required : Required perms)
    (allow_deactivated allow_external_clients trigger_online_update : bool)
    (request : option Request.t) (w : World) :
  let cls := if only_session_token then SessionToken else AccessToken in
  let run :=
    query_auth_data_from_token perms ext token only_session_token required
      allow_deactivated allow_external_clients trigger_online_update request w in
  ∃ calls,
    trace run.2 = trace w ++ calls ∧
    ((¬ (∃ unsigned permissions z,
           token ≠ "" ∧ decode_unsigned ext cls token = Ok unsigned ∧
           _query_scope_permissions perms
             (if only_session_token then "" else BaseToken.get_scope unsigned)
             required = Ok permissions ∧
           BaseToken.get_session_id unsigned = PyInt z)
      ∧ Forall (λ ev, is_client_check ev = false) calls)
     ∨ (∃ unsigned permissions z tail,
          token ≠ "" ∧ decode_unsigned ext cls token = Ok unsigned ∧
          _query_scope_permissions perms
            (if only_session_token then "" else BaseToken.get_scope unsigned)
            required = Ok permissions ∧
          BaseToken.get_session_id unsigned = PyInt z ∧
          calls
          = EvDecodeUnsigned cls token :: EvSessionGetById z
            :: lookup_checks w z
                 (allow_external_clients
                  || bool_decide (ApiPermissions.noexpire perms ∈ permissions))
                 request ++ tail
          ∧ Forall (λ ev, is_client_check ev = false) tail)).
Proof.
  intros cls run.
  assert (∀ unsigned,
            (if String.eqb (class_get_type cls) "access"
             then BaseToken.get_scope unsigned else "")
            = (if only_session_token then "" else BaseToken.get_scope unsigned))
    as Hscope by (intros; subst cls; by destruct only_session_token).
  assert (cls = AccessToken ∨ cls = SessionToken) as Hcls
    by (subst cls; destruct only_session_token; auto).
  assert (∀ a, no_client_check
            (bind (if only_session_token
                      && negb (String.eqb (BaseToken.get_type (AuthData.token a))
                                 (class_get_type SessionToken))
                   then _raise_integrity_check_error
                   else ret tt)
               (λ _, _query_auth_data perms ext a allow_deactivated
                       trigger_online_update))) as Hrest.
  { intros a. apply no_client_check_bind;
      [|intros; apply query_auth_data_no_client_check].
    destruct (only_session_token && _);
      [apply no_client_check_raise|apply no_client_check_ret]. }
  destruct (scope_check_passed_dec token cls required) as [Hreach|Hnot].
  - destruct Hreach as (unsigned & permissions & z & Htoken & Hunsigned
                        & Hperms & Hsid).
    destruct (decode_token_calls_after_scope_check token cls required
                allow_external_clients request w unsigned permissions z
                Hcls Htoken Hunsigned Hperms Hsid) as (tail & Htail & Hno).
    rewrite Hscope in Hperms.
    subst run. unfold query_auth_data_from_token. fold cls. unfold bind at 1.
    destruct (_decode_token perms ext token cls required request
                allow_external_clients w) as [[a|e] w1]; simpl in Htail.
    + destruct (Hrest a w1) as (tail' & Htail' & Hno').
      eexists. split; [rewrite Htail', Htail, <- app_assoc; reflexivity|].
      right. exists unsigned, permissions, z, (tail ++ tail').
      repeat (split; [done|]). split; [|by apply Forall_app].
      simpl. by rewrite <- app_assoc.
    + eexists. split; [exact Htail|].
      right. exists unsigned, permissions, z, tail. by repeat split.
  - destruct (decode_token_calls_before_lookup token cls required
                allow_external_clients request w Hnot)
      as (e & calls & Hrun & Hno).
    subst run. unfold query_auth_data_from_token. fold cls. unfold bind at 1.
    rewrite Hrun. exists calls. split; [done|]. left. split; [|done].
    intros (unsigned & permissions & z & Htoken & Hunsigned & Hperms & Hsid).
    apply Hnot. exists unsigned, permissions, z. by rewrite Hscope.
Qed.

End ClientBinding.

(** C2: in every call of the pipeline the client check is a call made right
    after the lookup of the session, and it is performed exactly when the
    call gets that far (the token is not empty, decodes unsigned, passes the
    scope check and names a stored, active session), the caller did not pass
    [allow_external_clients], a request is supplied and the permissions of
    the token do not hold [noexpire].  So with [allow_external_clients], with
    [noexpire] held or without a request no client check is performed.  The
    skip condition is a boolean of the permissions: a call that passes the
    scope check with an integer session id goes on to the session lookup,
    nothing is raised in between. *)
Theorem client_check_performed_exactly_when (perms : ApiPermissions.t)
    (ext : Collaborators) (token : string) (only_session_token : bool)
    (required : Required perms)
    (allow_deactivated allow_external_clients trigger_online_update : bool)
    (request : option Request.t) (w : World) :
  let cls := if only_session_token then SessionToken else AccessToken in
  let run :=
    query_auth_data_from_token perms ext token only_session_token required
      allow_deactivated allow_external_clients trigger_online_update request w in
  let passes unsigned permissions z :=
    token ≠ "" ∧ decode_unsigned ext cls token = Ok unsigned ∧
    _query_scope_permissions perms
      (if only_session_token then "" else BaseToken.get_scope unsigned)
      required = Ok permissions ∧
    BaseToken.get_session_id unsigned = PyInt z in
  ∃ calls,
    trace run.2 = trace w ++ calls ∧
    (∀ ev, is_client_check ev = true →
       (ev ∈ calls
        ↔ ∃ unsigned permissions z s r,
            passes unsigned permissions z ∧
            db_user_sessions w !! z = Some s ∧
            UserSession.is_active s = true ∧
            allow_external_clients = false ∧
            (ApiPermissions.noexpire perms ∉ permissions) ∧
            request = Some r ∧
            ev = EvSessionCheckClient s r)) ∧
    (∀ unsigned permissions z,
       passes unsigned permissions z →
       ∃ rest,
         calls = EvDecodeUnsigned cls token :: EvSessionGetById z :: rest).
Proof.
  intros cls run passes.
  destruct (pipeline_calls perms ext token only_session_token required
              allow_deactivated allow_external_clients trigger_online_update
              request w) as (calls & Htrace & Hcalls).
  fold cls run in Htrace. fold cls in Hcalls. exists calls. split; [done|].
  assert (∀ l ev, is_client_check ev = true →
                  Forall (λ ev, is_client_check ev = false) l → ev ∉ l) as Hnot.
  { intros l ev Hev Hl Hin. rewrite Forall_forall in Hl.
    specialize (Hl ev Hin). congruence. }
  destruct Hcalls as [[Hnone Hno]|Hsome].
  - split.
    + intros ev Hev. split.
      * intros Hin. by destruct (Hnot calls ev Hev Hno).
      * intros (unsigned & permissions & z & s & r & Hpass & _).
        destruct Hnone. by exists unsigned, permissions, z.
    + intros unsigned permissions z Hpass.
      destruct Hnone. by exists unsigned, permissions, z.
  - destruct Hsome as (unsigned & permissions & z & tail & Htoken & Hunsigned
                       & Hperms & Hsid & -> & Hno).
    assert (∀ unsigned' permissions' z',
              passes unsigned' permissions' z' →
              unsigned' = unsigned ∧ permissions' = permissions ∧ z' = z)
      as Hsame.
    { intros u p z' (_ & Hu & Hp & Hz).
      rewrite Hunsigned in Hu. injection Hu as <-.
      rewrite Hperms in Hp. injection Hp as <-.
      rewrite Hsid in Hz. by injection Hz as <-. }
    split.
    + intros ev Hev. rewrite !elem_of_cons, elem_of_app. unfold lookup_checks.
      split.
      * intros [->|[->|[Hin|Hin]]]; try done;
          [|by destruct (Hnot tail ev Hev Hno)].
        destruct (db_user_sessions w !! z) as [s|] eqn:Hs;
          [|by apply elem_of_nil in Hin].
        destruct (UserSession.is_active s) eqn:Hactive;
          [|by apply elem_of_nil in Hin].
        destruct allow_external_clients; simpl in Hin;
          [by apply elem_of_nil in Hin|].
        destruct (bool_decide_reflect
                    (ApiPermissions.noexpire perms ∈ permissions)) as [|Hout];
          simpl in Hin; [by apply elem_of_nil in Hin|].
        destruct request as [r|]; [|by apply elem_of_nil in Hin].
        apply list_elem_of_singleton in Hin as ->.
        exists unsigned, permissions, z, s, r. by repeat split.
      * intros (u & p & z' & s & r & Hpass & Hs & Hactive & -> & Hout & -> & ->).
        destruct (Hsame _ _ _ Hpass) as (-> & -> & ->).
        right. right. left. rewrite Hs, Hactive. simpl.
        rewrite bool_decide_eq_false_2 by done. by left.
    + intros u p z' Hpass. destruct (Hsame _ _ _ Hpass) as (-> & -> & ->).
      by eexists.
Qed.

(** A request with alice's token and the default flags: the client check of
    session 10 is performed, as the third call. *)
Lemma client_check_performed_exactly_when_witness :
  let req := Sample.request (Some "tok-alice") [] in
  let run :=
    query_auth_data_from_token Sample.perms Sample.ext "tok-alice" false ReqNone
      false false true (Some req) Sample.world in
  EvSessionCheckClient Sample.session10 req ∈ trace run.2.
Proof.
  intros req run.
  destruct (client_check_performed_exactly_when Sample.perms Sample.ext
              "tok-alice" false ReqNone false false true (Some req)
              Sample.world) as (calls & Htrace & Hiff & _).
  fold run in Htrace. rewrite Htrace. apply elem_of_app. right.
  apply Hiff; [done|].
  exists (BaseToken.mk "access" 1 (PyInt 10) "oauth_clients" false),
    [Sample.oauth_clients], 10%Z, Sample.session10, req.
  repeat split; try done.
  intros Hin. apply list_elem_of_singleton in Hin. discriminate.
Defined.

(** The calls of three runs in the sample deployment, each with a request:
    with the default flags the client check is the third call; a token whose
    scope holds [noexpire] skips it, and so does [allow_external_clients]. *)
Example client_check_sample_runs :
  let calls token allow_external_clients :=
    trace (query_auth_data_from_token Sample.perms Sample.ext token false
             ReqNone false allow_external_clients true
             (Some (Sample.request (Some token) [])) Sample.world).2 in
  calls "tok-alice" false
  = [EvDecodeUnsigned AccessToken "tok-alice"; EvSessionGetById 10;
     EvSessionCheckClient Sample.session10
       (Sample.request (Some "tok-alice") []);
     EvDecode AccessToken "tok-alice" "key10"; EvUserGetById 1; EvCommit]
  ∧ calls "tok-trusted" false
    = [EvDecodeUnsigned AccessToken "tok-trusted"; EvSessionGetById 10;
       EvDecode AccessToken "tok-trusted" "key10"; EvUserGetById 1; EvCommit]
  ∧ calls "tok-alice" true
    = [EvDecodeUnsigned AccessToken "tok-alice"; EvSessionGetById 10;
       EvDecode AccessToken "tok-alice" "key10"; EvUserGetById 1; EvCommit].
Proof. repeat split; vm_compute; reflexivity. Qed.
(** ** The non-raising variant *)
Section TryQuery.

Variable perms : ApiPermissions.t.
Variable ext : Collaborators.

(** Success is reported as [(True, auth_data)], and an [ApiErrorException] as
    [(False, None)]. *)
Lemma try_query_auth_data_from_request_caught (req : Request.t) (only : bool)
    (required : Required perms) (allow_deactivated allow_external : bool)
    (w w' : World) :
  (∀ a,
     query_auth_data_from_request perms ext req only required allow_deactivated
       allow_external true w = (Ok a, w') →
     try_query_auth_data_from_request perms ext req only required allow_deactivated
       allow_external w = (Ok (true, Some a), w')) ∧
  (∀ e,
     query_auth_data_from_request perms ext req only required allow_deactivated
       allow_external true w = (Raise e, w') →
     is_ApiErrorException e = true →
     try_query_auth_data_from_request perms ext req only required allow_deactivated
       allow_external w = (Ok (false, None), w')).
Proof.
  unfold try_query_auth_data_from_request, try_except_ApiErrorException, bind.
  split.
  - intros a ->. reflexivity.
  - intros e -> ->. reflexivity.
Qed.

(** Any other exception passes through the [except] clause. *)
Lemma try_query_auth_data_from_request_uncaught (req : Request.t) (only : bool)
    (required : Required perms) (allow_deactivated allow_external : bool)
    (w w' : World) (e : Exception) :
  query_auth_data_from_request perms ext req only required allow_deactivated
    allow_external true w = (Raise e, w') →
  is_ApiErrorException e = false →
  try_query_auth_data_from_request perms ext req only required allow_deactivated
    allow_external w = (Raise e, w').
Proof.
  unfold try_query_auth_data_from_request, try_except_ApiErrorException, bind.
  by intros -> ->.
Qed.

End TryQuery.

(** C4 fails on the code: for a request carrying an expired access token the
    unsigned decode raises [TokenExpiredError], which is not an
    [ApiErrorException]; [try_query_auth_data_from_request] lets it through
    instead of returning [(False, None)]. *)
Theorem try_query_auth_data_from_request_raises_expired :
  try_query_auth_data_from_request Sample.perms Sample.ext
    (Sample.request (Some "tok-expired") []) false ReqNone false true
    Sample.world
  = (Raise TokenExpiredError,
     log (EvDecodeUnsigned AccessToken "tok-expired") Sample.world).
Proof.
  apply try_query_auth_data_from_request_uncaught; reflexivity.
Qed.

(** ** The scope check comes first *)

(** C6: when the caller requires permissions that the scope of the unsigned
    token does not satisfy, the pipeline raises InsufficientPermissions and
    the only call it has made is the unsigned decode: no session lookup, no
    client check, no signed decode, no user lookup.  For a session token the
    held scope of this check is the empty scope: the held permissions are
    those the empty scope parses to, whatever scope the token carries. *)
Theorem scope_check_precedes_session_io (perms : ApiPermissions.t)
    (ext : Collaborators) (token : string)
    (only_session_token : bool) (required_permissions : Required perms)
    (allow_deactivated allow_external_clients trigger_online_update : bool)
    (request : option Request.t) (w : World) (unsigned : BaseToken.t)
    (H : list perms) :
  let cls := if only_session_token then SessionToken else AccessToken in
  let unsatisfied := list_difference (required_list required_permissions) H in
  let required_scope :=
    str_join ", " (map (ApiPermissions.value perms) unsatisfied) in
  token ≠ "" →
  decode_unsigned ext cls token = Ok unsigned →
  ApiPermissions.parse_permissions_from_scope perms
    (if only_session_token then "" else BaseToken.get_scope unsigned) = Ok H →
  unsatisfied ≠ [] →
  query_auth_data_from_token perms ext token only_session_token
    required_permissions allow_deactivated allow_external_clients
    trigger_online_update request w
  = (Raise (insufficient_permissions_error required_scope),
     log (EvDecodeUnsigned cls token) w) ∧
  api_code_of (insufficient_permissions_error required_scope)
    = Some AUTH_INSUFFICIENT_PERMISSIONS ∧
  (only_session_token = true →
   ApiPermissions.parse_permissions_from_scope perms "" = Ok H).
Proof.
  intros cls unsatisfied required_scope Htoken Hunsigned Hparse Hunsat.
  split; [|split; [done|]].
  - unfold query_auth_data_from_token. apply bind_Raise.
    fold cls. unfold _decode_token.
    assert (negb (bool_decide (cls = AccessToken))
            && negb (bool_decide (cls = SessionToken)) = false) as ->.
    { subst cls. by destruct only_session_token. }
    assert (negb (str_truthy token) = false) as -> by by destruct token.
    unfold bind, call_decode_unsigned, lift. rewrite Hunsigned.
    assert ((if String.eqb (class_get_type cls) "access"
             then BaseToken.get_scope unsigned else "")
            = (if only_session_token then "" else BaseToken.get_scope unsigned))
      as -> by (subst cls; by destruct only_session_token).
    rewrite (query_scope_permissions_parsed perms _ required_permissions H Hparse).
    fold unsatisfied. by rewrite decide_False.
  - by intros ->.
Qed.

(** An access token with an empty scope, [oauth_clients] required, with the
    default flags. *)
Lemma scope_check_precedes_session_io_witness :
  query_auth_data_from_token Sample.perms Sample.ext "tok-plain" false
    (ReqList [Sample.oauth_clients]) false false true None Sample.world
  = (Raise (insufficient_permissions_error "oauth_clients"),
     log (EvDecodeUnsigned AccessToken "tok-plain") Sample.world) ∧
  api_code_of (insufficient_permissions_error "oauth_clients")
    = Some AUTH_INSUFFICIENT_PERMISSIONS ∧
  (false = true →
   ApiPermissions.parse_permissions_from_scope Sample.perms "" = Ok []).
Proof.
  apply (scope_check_precedes_session_io Sample.perms Sample.ext "tok-plain" false
           (ReqList [Sample.oauth_clients]) false false true None Sample.world
           (BaseToken.mk "access" 1 (PyInt 10) "" false) []).
  - discriminate.
  - reflexivity.
  - reflexivity.
  - discriminate.
Defined.

(** ** Token extraction *)

(** C9: the token of a request is the [Authorization] header, and the
    [access_token] query parameter only when the header is absent or empty; in
    session-token-only mode it is the [session_token] query parameter and
    nothing else; and when the extracted token is empty the pipeline raises
    AuthRequired without having decoded anything (the world is untouched). *)
Theorem token_extraction_and_auth_required (perms : ApiPermissions.t)
    (ext : Collaborators) (req : Request.t) :
  (∀ h, Request.headers req !! "Authorization" = Some h → h ≠ "" →
        _get_token_from_request req false = h) ∧
  (Request.headers req !! "Authorization" = None
   ∨ Request.headers req !! "Authorization" = Some "" →
   _get_token_from_request req false
     = default "" (Request.query_params req !! "access_token")) ∧
  _get_token_from_request req true
    = default "" (Request.query_params req !! "session_token") ∧
  (∀ only_session_token required allow_deactivated allow_external_clients
     trigger_online_update w,
     _get_token_from_request req only_session_token = "" →
     query_auth_data_from_request perms ext req only_session_token required
       allow_deactivated allow_external_clients trigger_online_update w
     = (Raise (ApiErrorException AUTH_REQUIRED "Authentication required!" None),
        w)).
Proof.
  split; [|split; [|split]].
  - intros h Hh Hne. unfold _get_token_from_request, Request.get.
    rewrite Hh. simpl. by destruct h.
  - intros Hh. unfold _get_token_from_request, Request.get.
    by destruct Hh as [-> | ->].
  - reflexivity.
  - intros only required ad ae tu w Hempty.
    unfold query_auth_data_from_request, query_auth_data_from_token.
    rewrite Hempty. apply bind_Raise. unfold _decode_token.
    by destruct only.
Qed.

(** Three requests of the sample kind: the header wins over the parameter;
    without a header the parameter is read, the last value when it is given
    twice; in session-token-only mode the header is not read. *)
Example get_token_from_request_samples :
  _get_token_from_request
    (Sample.request (Some "from-header") [("access_token", "from-param")]) false
  = "from-header"
  ∧ _get_token_from_request
      (Sample.request None [("access_token", "first"); ("access_token", "last")])
      false
    = "last"
  ∧ _get_token_from_request
      (Sample.request (Some "from-header") [("session_token", "from-param")])
      true
    = "from-param".
Proof. repeat split; vm_compute; reflexivity. Qed.

(** ** The authenticated context *)

(** C10: whenever [query_auth_data_from_token] returns, the session of the
    returned AuthData is a stored, active session; the token is the signed
    decode of the token string under that session's secret and its signature
    is valid; the user is the one stored under the token's subject id (with
    the online time set when the update is triggered); the session's owner id
    is the user's id; and the user is active unless [allow_deactivated]. *)
Theorem query_auth_data_from_token_invariant (perms : ApiPermissions.t)
    (ext : Collaborators) (token : string)
    (only_session_token : bool) (required : Required perms)
    (allow_deactivated allow_external_clients trigger_online_update : bool)
    (request : option Request.t) (w w' : World) (a : AuthData.t perms) :
  query_auth_data_from_token perms ext token only_session_token required
    allow_deactivated allow_external_clients trigger_online_update request w
  = (Ok a, w') →
  ∃ z found user,
    db_user_sessions w !! z = Some (AuthData.session a) ∧
    UserSession.is_active (AuthData.session a) = true ∧
    decode ext (if only_session_token then SessionToken else AccessToken) token
      (UserSession.token_secret (AuthData.session a)) = Ok (AuthData.token a) ∧
    BaseToken.signature_is_valid (AuthData.token a) = true ∧
    db_users w !! BaseToken.get_subject (AuthData.token a) = Some found ∧
    AuthData.user a = Some user ∧
    user = (if trigger_online_update
            then User.set_time_online (datetime_now ext) found else found) ∧
    UserSession.owner_id (AuthData.session a) = User.id user ∧
    (User.is_active user = true ∨ allow_deactivated = true).
Proof.
  unfold query_auth_data_from_token. intros Hrun.
  apply bind_Ok_inv in Hrun as (a0 & w1 & Hdecode & Hrun).
  apply decode_token_Ok in Hdecode as (z & Hz & Hactive & Hsigned & Hvalid & Hdb).
  apply bind_Ok_inv in Hrun as ([] & w2 & Htype & Hrun).
  assert (w2 = w1) as ->.
  { destruct (only_session_token && _); [done|]. by injection Htype as <-. }
  apply query_auth_data_Ok in Hrun as (found & Hfound & Howner & Hgate & ->).
  destruct Hdb as [_ Husers]. rewrite Husers in Hfound.
  exists z, found,
    (if trigger_online_update
     then User.set_time_online (datetime_now ext) found else found).
  simpl. repeat split; try done.
  - by destruct trigger_online_update.
  - by destruct trigger_online_update.
Qed.

(** A successful run in the sample deployment, with the default flags and a
    request. *)
Lemma query_auth_data_from_token_invariant_witness :
  ∃ a w',
    query_auth_data_from_token Sample.perms Sample.ext "tok-alice" false
      ReqNone false false true (Some (Sample.request (Some "tok-alice") []))
      Sample.world = (Ok a, w') ∧
    ∃ z found user,
      db_user_sessions Sample.world !! z = Some (AuthData.session a) ∧
      UserSession.is_active (AuthData.session a) = true ∧
      decode Sample.ext AccessToken "tok-alice"
        (UserSession.token_secret (AuthData.session a)) = Ok (AuthData.token a) ∧
      BaseToken.signature_is_valid (AuthData.token a) = true ∧
      db_users Sample.world !! BaseToken.get_subject (AuthData.token a)
        = Some found ∧
      AuthData.user a = Some user ∧
      user = User.set_time_online (datetime_now Sample.ext) found ∧
      UserSession.owner_id (AuthData.session a) = User.id user ∧
      (User.is_active user = true ∨ false = true).
Proof.
  eexists _, _. split; [vm_compute; reflexivity|].
  eapply (query_auth_data_from_token_invariant Sample.perms Sample.ext
            "tok-alice" false ReqNone false false true
            (Some (Sample.request (Some "tok-alice") [])) Sample.world).
  vm_compute; reflexivity.
Defined.

(** * Further properties of the code *)

(** ** Joining scopes *)
Section ScopeComposition.

Lemma str_split_app_sep (sep : ascii) (a b : string) :
  str_split sep (a +:+ String sep b) = (str_split sep a ++ str_split sep b)%list.
Proof.
  induction a as [|c a IH]; simpl.
  - by rewrite Ascii.eqb_refl.
  - fold (a +:+ String sep b). rewrite IH.
    destruct (Ascii.eqb c sep); [done|].
    pose proof (str_split_not_nil sep a) as Hnil.
    by destruct (str_split sep a).
Qed.

Lemma rmap_app {A B} (f : A → Result B) (l1 l2 : list A) (r1 r2 : list B) :
  rmap f l1 = Ok r1 → rmap f l2 = Ok r2 → rmap f (l1 ++ l2)%list = Ok (r1 ++ r2)%list.
Proof.
  revert r1. induction l1 as [|x l1 IH]; simpl; intros r1 H1 H2.
  - by injection H1 as <-.
  - destruct (f x) as [y|e]; [|done]. simpl in *.
    destruct (rmap f l1) as [ys|e]; [|done]. simpl in *.
    injection H1 as <-. by rewrite (IH ys eq_refl H2).
Qed.

Lemma parse_app (a b : string) (pa pb : list Permission) :
  parse_permissions_from_scope a = Ok pa →
  parse_permissions_from_scope b = Ok pb →
  parse_permissions_from_scope (a +:+ String SCOPE_PERMISSION_SEPARATOR b)
    = Ok (pa ++ pb)%list.
Proof.
  unfold parse_permissions_from_scope. intros Ha Hb.
  rewrite str_split_app_sep, List.filter_app. by apply rmap_app.
Qed.


End ScopeComposition.

(** X1: parsing distributes over joining two scopes with a comma: the
    permissions of [a + "," + b] are those of [a] followed by those of [b]. *)
Theorem parse_permissions_from_scope_app (a b : string) :
  ∃ pa pb,
    parse_permissions_from_scope a = Ok pa ∧
    parse_permissions_from_scope b = Ok pb ∧
    parse_permissions_from_scope (a +:+ "," +:+ b) = Ok (pa ++ pb)%list.
Proof.
  destruct (parse_permissions_from_scope_ok a) as (pa & Ha & _).
  destruct (parse_permissions_from_scope_ok b) as (pb & Hb & _).
  exists pa, pb. repeat split; try done.
  by apply parse_app.
Qed.

(** ** The permission check, for every shape of requirement *)
Section PermissionCheckShapes.

Variable perms : ApiPermissions.t.

Lemma list_difference_nil_iff (R H : list perms) :
  list_difference R H = [] ↔ ∀ p, p ∈ R → p ∈ H.
Proof.
  split.
  - intros Hnil p Hp. destruct (decide (p ∈ H)) as [|Hout]; [done|].
    assert (p ∈ list_difference R H) as Hin by by apply list_elem_of_difference.
    rewrite Hnil in Hin. by apply elem_of_nil in Hin.
  - intros Hall. destruct (list_difference R H) as [|p l] eqn:E; [done|].
    assert (p ∈ list_difference R H) as Hin by (rewrite E; by left).
    apply list_elem_of_difference in Hin as [Hp Hout].
    by destruct (Hout (Hall p Hp)).
Qed.

Lemma query_scope_permissions_Ok_inv (scope : string) (required : Required perms)
    (H r : list perms) :
  ApiPermissions.parse_permissions_from_scope perms scope = Ok H →
  _query_scope_permissions perms scope required = Ok r →
  r = H ∧ ∀ p, p ∈ required_list required → p ∈ H.
Proof.
  intros Hparse.
  rewrite (query_scope_permissions_parsed perms scope required H Hparse).
  destruct (decide _) as [Hnil|]; [|done].
  intros Hr. injection Hr as <-. split; [done|]. by apply list_difference_nil_iff.
Qed.

End PermissionCheckShapes.

(** X3: over whatever enum of permissions, when the scope parses to the held
    list [H] the permission check succeeds exactly when every required
    permission is in [H], whatever the shape of the requirement (none, one
    permission, a list), and what it then returns is [H]; when the parser
    raises, the check raises the same exception. *)
Theorem query_scope_permissions_ok_iff (perms : ApiPermissions.t) (scope : string)
    (required : Required perms) :
  match ApiPermissions.parse_permissions_from_scope perms scope with
  | Ok H =>
      (_query_scope_permissions perms scope required = Ok H
       ↔ ∀ p, p ∈ required_list required → p ∈ H) ∧
      (∀ r, _query_scope_permissions perms scope required = Ok r → r = H)
  | Raise e => _query_scope_permissions perms scope required = Raise e
  end.
Proof.
  destruct (ApiPermissions.parse_permissions_from_scope perms scope)
    as [H|e] eqn:Hparse.
  - split; [split|].
    + intros Hok.
      by destruct (query_scope_permissions_Ok_inv perms scope required H H
                     Hparse Hok).
    + intros Hall.
      rewrite (query_scope_permissions_parsed perms scope required H Hparse).
      by rewrite decide_True by by apply list_difference_nil_iff.
    + intros r Hok.
      by destruct (query_scope_permissions_Ok_inv perms scope required H r
                     Hparse Hok).
  - unfold _query_scope_permissions. by rewrite Hparse.
Qed.

(** Every required permission, not any: in the sample enum a scope holding
    [admin] alone does not satisfy a requirement of [admin] and
    [oauth_clients], and a scope holding both does. *)
Example query_scope_permissions_every_required :
  _query_scope_permissions Sample.perms "admin"
    (ReqList [Sample.admin; Sample.oauth_clients])
  = Raise (insufficient_permissions_error "oauth_clients")
  ∧ _query_scope_permissions Sample.perms "oauth_clients,admin"
      (ReqList [Sample.admin; Sample.oauth_clients])
    = Ok [Sample.oauth_clients; Sample.admin]
  ∧ _query_scope_permissions Sample.perms "oauth_clients" (ReqOne Sample.admin)
    = Raise (insufficient_permissions_error "admin").
Proof. repeat split; reflexivity. Qed.

(** ** What the pipeline does to the database *)
Section DatabaseEffects.

Variable perms : ApiPermissions.t.
Variable ext : Collaborators.

Lemma same_db_refl (w : World) : same_db w w.
Proof. by split. Qed.

Lemma same_db_step (w1 w2 w3 : World) :
  same_db w1 w2 → same_db w2 w3 → same_db w1 w3.
Proof. intros [? ?] [? ?]. split; congruence. Qed.

Lemma bind_same_db {A B} (m : M A) (k : A → M B) :
  (∀ w, same_db w (m w).2) →
  (∀ a w, same_db w (k a w).2) →
  ∀ w, same_db w (bind m k w).2.
Proof.
  intros Hm Hk w. unfold bind. specialize (Hm w).
  destruct (m w) as [[a|e] w1]; simpl in *; [|done].
  eapply same_db_step; [exact Hm|apply Hk].
Qed.

Lemma query_session_from_sid_same_db (session_id : PyValue)
    (request : option Request.t) (allow : bool) (w : World) :
  same_db w (_query_session_from_sid ext session_id request allow w).2.
Proof.
  revert w. destruct session_id as [z| |]; simpl;
    [|intros w; apply same_db_refl..].
  apply bind_same_db; [intros w; by split|].
  intros [s|] w; [|apply same_db_refl].
  destruct (UserSession.is_active s); simpl; [|apply same_db_refl].
  destruct allow, request as [r|]; simpl; try apply same_db_refl.
  revert w. apply bind_same_db; [intros w; by split|].
  intros _ w. apply same_db_refl.
Qed.

Lemma decode_token_same_db
    (token : string) (cls : TokenClass) (required : Required perms)
    (request : option Request.t) (allow : bool) (w : World) :
  same_db w (_decode_token perms ext token cls required request allow w).2.
Proof.
  revert w. unfold _decode_token.
  destruct (negb (bool_decide (cls = AccessToken))
            && negb (bool_decide (cls = SessionToken)));
    [intros w; apply same_db_refl|].
  destruct (negb (str_truthy token)); [intros w; apply same_db_refl|].
  apply bind_same_db; [intros w; by split|]. intros unsigned.
  apply bind_same_db; [intros w; apply same_db_refl|]. intros permissions.
  cbv zeta.
  apply bind_same_db; [apply query_session_from_sid_same_db|]. intros session.
  apply bind_same_db; [intros w; by split|]. intros signed w.
  destruct (negb (BaseToken.signature_is_valid signed)); apply same_db_refl.
Qed.

(** The users table after [_query_auth_data]. *)
Lemma query_auth_data_db (a : AuthData.t perms) (allow_deactivated trigger : bool)
    (w : World) :
  let run := _query_auth_data perms ext a allow_deactivated trigger w in
  db_user_sessions run.2 = db_user_sessions w ∧
  match run.1 with
  | Raise _ => db_users run.2 = db_users w
  | Ok a' =>
      ∃ found,
        db_users w !! BaseToken.get_subject (AuthData.token a) = Some found ∧
        db_users run.2 =
          if trigger
          then <[BaseToken.get_subject (AuthData.token a) :=
                   User.set_time_online (datetime_now ext) found]> (db_users w)
          else db_users w
  end.
Proof.
  unfold _query_auth_data, bind, crud_user_get_by_id. simpl.
  destruct (db_users w !! _) as [u|] eqn:Hu; simpl; [|done].
  destruct (negb (_ =? _)%Z); simpl; [done|].
  destruct (negb (User.is_active u) && negb allow_deactivated); simpl; [done|].
  destruct trigger; simpl; (split; [done|]); by exists u.
Qed.

End DatabaseEffects.

(** X4: the pipeline never writes the sessions table, and a call that raises,
    or that is made with [trigger_online_update=False], leaves the users table
    as it was. *)
Theorem pipeline_reads_only (perms : ApiPermissions.t)
    (ext : Collaborators) (token : string)
    (only_session_token : bool) (required : Required perms)
    (allow_deactivated allow_external_clients trigger_online_update : bool)
    (request : option Request.t) (w : World) :
  let run :=
    query_auth_data_from_token perms ext token only_session_token required
      allow_deactivated allow_external_clients trigger_online_update request w in
  db_user_sessions run.2 = db_user_sessions w ∧
  ((∀ a, run.1 ≠ Ok a) ∨ trigger_online_update = false →
   db_users run.2 = db_users w).
Proof.
  intros run.
  assert (db_user_sessions run.2 = db_user_sessions w ∧
          match run.1 with
          | Raise _ => db_users run.2 = db_users w
          | Ok _ => trigger_online_update = false → db_users run.2 = db_users w
          end) as [Hs Hu].
  { subst run. unfold query_auth_data_from_token, bind.
    set (cls := if only_session_token then SessionToken else AccessToken).
    pose proof (decode_token_same_db perms ext token cls required request
                  allow_external_clients w) as [Hs Hu].
    destruct (_decode_token perms ext token cls required request
                allow_external_clients w) as [[a0|e] w1]; simpl in *; [|done].
    destruct (only_session_token && _); simpl; [done|].
    pose proof (query_auth_data_db perms ext a0 allow_deactivated
                  trigger_online_update w1) as [Hs' Hu'].
    destruct (_query_auth_data perms ext a0 allow_deactivated
                trigger_online_update w1)
      as [[a1|e] w2]; simpl in *.
    - split; [congruence|]. intros ->.
      destruct Hu' as (found & _ & ->). done.
    - split; congruence. }
  split; [done|].
  destruct run.1 as [a|e]; intros [Hfail | Hoff]; auto.
  by destruct (Hfail a).
Qed.

(** X5: a successful call with [trigger_online_update=True] changes the users
    table in one row only: the row of the token's subject now holds the
    returned user, which is the stored user with [time_online] set to the
    current time; every other row is as before. *)
Theorem pipeline_updates_online_time (perms : ApiPermissions.t)
    (ext : Collaborators) (token : string)
    (only_session_token : bool) (required : Required perms)
    (allow_deactivated allow_external_clients : bool)
    (request : option Request.t) (w w' : World) (a : AuthData.t perms) :
  query_auth_data_from_token perms ext token only_session_token required
    allow_deactivated allow_external_clients true request w = (Ok a, w') →
  ∃ found,
    db_users w !! BaseToken.get_subject (AuthData.token a) = Some found ∧
    AuthData.user a = Some (User.set_time_online (datetime_now ext) found) ∧
    db_users w' !! BaseToken.get_subject (AuthData.token a) = AuthData.user a ∧
    (∀ k, k ≠ BaseToken.get_subject (AuthData.token a) →
          db_users w' !! k = db_users w !! k).
Proof.
  unfold query_auth_data_from_token. intros Hrun.
  apply bind_Ok_inv in Hrun as (a0 & w1 & Hdecode & Hrun).
  pose proof (decode_token_same_db perms ext token
                (if only_session_token then SessionToken else AccessToken)
                required request allow_external_clients w) as [_ Hu].
  rewrite Hdecode in Hu. simpl in Hu.
  apply bind_Ok_inv in Hrun as ([] & w2 & Htype & Hrun).
  assert (w2 = w1) as ->.
  { destruct (only_session_token && _); [done|]. by injection Htype as <-. }
  pose proof (query_auth_data_db perms ext a0 allow_deactivated true w1) as [_ Hdb].
  pose proof Hrun as Hok.
  apply query_auth_data_Ok in Hok as (found & Hfound & _ & _ & ->).
  rewrite Hrun in Hdb. simpl in Hdb. destruct Hdb as (found' & Hfound' & Hdb).
  rewrite Hfound in Hfound'. injection Hfound' as <-.
  rewrite Hu in Hfound. exists found. simpl.
  rewrite Hdb. repeat split; try done.
  - by rewrite lookup_insert_eq.
  - intros k Hk. by rewrite lookup_insert_ne, Hu.
Qed.

(** A successful run with the online update and the default flags, in the
    sample deployment. *)
Lemma pipeline_updates_online_time_witness :
  ∃ a w',
    query_auth_data_from_token Sample.perms Sample.ext "tok-alice" false
      ReqNone false false true None Sample.world = (Ok a, w') ∧
    ∃ found,
      db_users Sample.world !! BaseToken.get_subject (AuthData.token a)
        = Some found ∧
      AuthData.user a
        = Some (User.set_time_online (datetime_now Sample.ext) found) ∧
      db_users w' !! BaseToken.get_subject (AuthData.token a) = AuthData.user a ∧
      (∀ k, k ≠ BaseToken.get_subject (AuthData.token a) →
            db_users w' !! k = db_users Sample.world !! k).
Proof.
  eexists _, _. split; [vm_compute; reflexivity|].
  eapply (pipeline_updates_online_time Sample.perms Sample.ext "tok-alice"
            false ReqNone false false None Sample.world).
  vm_compute; reflexivity.
Defined.


(** ** The order of the pipeline's calls *)
Section CallOrder.

Variable perms : ApiPermissions.t.
Variable ext : Collaborators.

Lemma query_session_from_sid_Ok_trace (session_id : PyValue)
    (request : option Request.t) (allow : bool) (w w' : World)
    (session : UserSession.t) :
  _query_session_from_sid ext session_id request allow w = (Ok session, w') →
  ∃ z,
    session_id = PyInt z ∧
    trace w' = trace w ++ EvSessionGetById z :: checks_of allow request session.
Proof.
  destruct session_id as [z| |]; simpl; [|done..].
  unfold bind, crud_user_session_get_by_id.
  destruct (db_user_sessions w !! z) as [s|]; [|done].
  destruct (UserSession.is_active s); [|done]. simpl.
  destruct allow, request as [r|]; simpl;
    try (intros [= <- <-]; exists z; simpl; by auto).
  unfold call_session_check_client.
  destruct (session_check_client_by_request ext s r); [|done].
  intros [= <- <-]. exists z. simpl.
  rewrite <- app_assoc. by split.
Qed.

(** What a successful [_decode_token] has called, and with what. *)
Lemma decode_token_Ok_trace (token : string) (cls : TokenClass)
    (required : Required perms) (request : option Request.t) (allow : bool)
    (w w' : World) (a : AuthData.t perms) :
  _decode_token perms ext token cls required request allow w = (Ok a, w') →
  ∃ unsigned z,
    decode_unsigned ext cls token = Ok unsigned ∧
    BaseToken.get_session_id unsigned = PyInt z ∧
    _query_scope_permissions perms
      (if String.eqb (class_get_type cls) "access"
       then BaseToken.get_scope unsigned else "") required
      = Ok (AuthData.permissions a) ∧
    AuthData.user a = None ∧
    trace w' =
      trace w
        ++ [EvDecodeUnsigned cls token; EvSessionGetById z]
        ++ checks_of
             (allow
              || bool_decide
                   (ApiPermissions.noexpire perms ∈ AuthData.permissions a))
             request (AuthData.session a)
        ++ [EvDecode cls token (UserSession.token_secret (AuthData.session a))].
Proof.
  unfold _decode_token.
  destruct (negb (bool_decide (cls = AccessToken))
            && negb (bool_decide (cls = SessionToken))); [done|].
  destruct (negb (str_truthy token)); [done|].
  intros Hrun.
  apply bind_Ok_inv in Hrun as (unsigned & w1 & Hunsigned & Hrun).
  unfold call_decode_unsigned in Hunsigned. injection Hunsigned as Hunsigned <-.
  apply bind_Ok_inv in Hrun as (held & w2 & Hheld & Hrun).
  unfold lift in Hheld. injection Hheld as Hheld <-.
  cbv zeta in Hrun.
  apply bind_Ok_inv in Hrun as (session & w4 & Hsession & Hrun).
  apply query_session_from_sid_Ok_trace in Hsession as (z & Hz & Htrace).
  apply bind_Ok_inv in Hrun as (signed & w5 & Hsigned & Hrun).
  unfold call_decode in Hsigned. injection Hsigned as Hsigned <-.
  destruct (BaseToken.signature_is_valid signed); [|done].
  simpl in Hrun. injection Hrun as <- <-. simpl.
  exists unsigned, z. repeat split; try done.
  rewrite Htrace. simpl. rewrite <- !app_assoc. simpl.
  by destruct allow.
Qed.

Lemma query_auth_data_Ok_trace
    (a a' : AuthData.t perms) (allow_deactivated trigger : bool)
    (w w' : World) :
  _query_auth_data perms ext a allow_deactivated trigger w = (Ok a', w') →
  AuthData.token a' = AuthData.token a ∧
  AuthData.session a' = AuthData.session a ∧
  AuthData.permissions a' = AuthData.permissions a ∧
  trace w' = trace w
               ++ EvUserGetById (BaseToken.get_subject (AuthData.token a))
               :: (if trigger then [EvCommit] else []).
Proof.
  unfold _query_auth_data, bind, crud_user_get_by_id. simpl.
  destruct (db_users w !! _) as [u|]; [|done].
  destruct (negb (_ =? _)%Z); [done|].
  destruct (negb (User.is_active u) && negb allow_deactivated); [done|].
  destruct trigger; simpl; intros [= <- <-]; simpl;
    rewrite <- ?app_assoc; by repeat split.
Qed.

End CallOrder.

(** X6: for a stored, active session [_query_session_from_sid] runs the client
    check exactly when external clients are not allowed and a request is
    supplied; the check's error is raised as it is, and otherwise the stored
    session is returned.  In every other case the session is returned after the
    lookup alone. *)
Theorem client_check_exactly_when (ext : Collaborators) (z : Z)
    (request : option Request.t) (allow_external_clients : bool) (w : World)
    (s : UserSession.t) :
  db_user_sessions w !! z = Some s →
  UserSession.is_active s = true →
  _query_session_from_sid ext (PyInt z) request allow_external_clients w
  = match allow_external_clients, request with
    | false, Some r =>
        (match session_check_client_by_request ext s r with
         | Ok _ => Ok s
         | Raise e => Raise e
         end,
         log (EvSessionCheckClient s r) (log (EvSessionGetById z) w))
    | _, _ => (Ok s, log (EvSessionGetById z) w)
    end.
Proof. apply query_session_from_sid_active. Qed.

(** The check is run for a request on session 10 of the sample deployment. *)
Lemma client_check_exactly_when_witness :
  _query_session_from_sid Sample.ext (PyInt 10)
    (Some (Sample.request None [])) false Sample.world
  = (Ok Sample.session10,
     log (EvSessionCheckClient Sample.session10 (Sample.request None []))
       (log (EvSessionGetById 10) Sample.world)).
Proof.
  apply (client_check_exactly_when Sample.ext 10 (Some (Sample.request None []))
           false Sample.world Sample.session10); reflexivity.
Defined.

(** X7: with external clients allowed, a token whose session was closed is
    rejected with InvalidToken ("session was closed") right after the session
    lookup: the signed decode is not attempted and no user is looked up,
    whatever the token's signature. *)
Theorem closed_session_rejected (perms : ApiPermissions.t)
    (ext : Collaborators) (token : string)
    (only_session_token : bool) (required : Required perms)
    (allow_deactivated trigger_online_update : bool)
    (request : option Request.t) (w : World) (unsigned : BaseToken.t)
    (permissions : list perms) (z : Z) (s : UserSession.t) :
  let cls := if only_session_token then SessionToken else AccessToken in
  token ≠ "" →
  decode_unsigned ext cls token = Ok unsigned →
  _query_scope_permissions perms
    (if String.eqb (class_get_type cls) "access"
     then BaseToken.get_scope unsigned else "") required = Ok permissions →
  BaseToken.get_session_id unsigned = PyInt z →
  db_user_sessions w !! z = Some s →
  UserSession.is_active s = false →
  query_auth_data_from_token perms ext token only_session_token required
    allow_deactivated true trigger_online_update request w
  = (Raise (ApiErrorException AUTH_INVALID_TOKEN
              "Token is not usable as session was closed!" None),
     log (EvSessionGetById z) (log (EvDecodeUnsigned cls token) w)).
Proof.
  intros cls Htoken Hunsigned Hperms Hsid Hs Hclosed.
  unfold query_auth_data_from_token. apply bind_Raise. fold cls.
  rewrite (decode_token_after_scope_check perms ext token cls required request
             true w unsigned permissions); try done.
  - apply bind_Raise. rewrite Hsid. cbn [negb].
    by apply (query_session_from_sid_closed ext z request true _ s).
  - subst cls. destruct only_session_token; auto.
Qed.

(** The token of the closed session 11 of the sample deployment. *)
Lemma closed_session_rejected_witness :
  query_auth_data_from_token Sample.perms Sample.ext "tok-closed" false ReqNone
    false true true None Sample.world
  = (Raise (ApiErrorException AUTH_INVALID_TOKEN
              "Token is not usable as session was closed!" None),
     log (EvSessionGetById 11)
       (log (EvDecodeUnsigned AccessToken "tok-closed") Sample.world)).
Proof.
  apply (closed_session_rejected Sample.perms Sample.ext "tok-closed" false
           ReqNone false true None Sample.world
           (BaseToken.mk "access" 1 (PyInt 11) "" false) [] 11 Sample.session11);
    try reflexivity.
  discriminate.
Defined.

(** X8: with external clients allowed, a token whose signature is not valid
    under the secret of its open session is rejected with InvalidToken
    ("unable to validate signature") after the signed decode: no user is
    looked up and nothing is committed. *)
Theorem invalid_signature_rejected (perms : ApiPermissions.t)
    (ext : Collaborators) (token : string)
    (only_session_token : bool) (required : Required perms)
    (allow_deactivated trigger_online_update : bool)
    (request : option Request.t) (w : World) (unsigned signed : BaseToken.t)
    (permissions : list perms) (z : Z) (s : UserSession.t) :
  let cls := if only_session_token then SessionToken else AccessToken in
  token ≠ "" →
  decode_unsigned ext cls token = Ok unsigned →
  _query_scope_permissions perms
    (if String.eqb (class_get_type cls) "access"
     then BaseToken.get_scope unsigned else "") required = Ok permissions →
  BaseToken.get_session_id unsigned = PyInt z →
  db_user_sessions w !! z = Some s →
  UserSession.is_active s = true →
  decode ext cls token (UserSession.token_secret s) = Ok signed →
  BaseToken.signature_is_valid signed = false →
  query_auth_data_from_token perms ext token only_session_token required
    allow_deactivated true trigger_online_update request w
  = (Raise (ApiErrorException AUTH_INVALID_TOKEN
              "Unable to validate signature of the token!" None),
     log (EvDecode cls token (UserSession.token_secret s))
       (log (EvSessionGetById z) (log (EvDecodeUnsigned cls token) w))).
Proof.
  intros cls Htoken Hunsigned Hperms Hsid Hs Hactive Hsigned Hinvalid.
  unfold query_auth_data_from_token. apply bind_Raise. fold cls.
  rewrite (decode_token_after_scope_check perms ext token cls required request
             true w unsigned permissions); try done.
  - rewrite Hsid. cbn [negb].
    unfold bind at 1.
    rewrite (query_session_from_sid_active ext z request true
               (log (EvDecodeUnsigned cls token) w) s Hs Hactive).
    replace (match request with Some _ | _ => _ end)
      with (Ok s, log (EvSessionGetById z) (log (EvDecodeUnsigned cls token) w))
      by by destruct request.
    unfold bind, call_decode. rewrite Hsigned, Hinvalid. reflexivity.
  - subst cls. destruct only_session_token; auto.
Qed.

(** Alice's token after the secret of session 10 was changed. *)
Lemma invalid_signature_rejected_witness :
  query_auth_data_from_token Sample.perms Sample.ext "tok-alice" false ReqNone
    false true true None Demo.world_rotated
  = (Raise (ApiErrorException AUTH_INVALID_TOKEN
              "Unable to validate signature of the token!" None),
     log (EvDecode AccessToken "tok-alice" "rotated")
       (log (EvSessionGetById 10)
          (log (EvDecodeUnsigned AccessToken "tok-alice") Demo.world_rotated))).
Proof.
  apply (invalid_signature_rejected Sample.perms Sample.ext "tok-alice" false
           ReqNone false true None Demo.world_rotated
           (BaseToken.mk "access" 1 (PyInt 10) "oauth_clients" false)
           (BaseToken.mk "access" 1 (PyInt 10) "oauth_clients" false)
           [Sample.oauth_clients] 10 (UserSession.mk 10 1 "rotated" true));
    try reflexivity.
  discriminate.
Defined.

(** X9: a successful call has made its calls in this order and no others: the
    unsigned decode, the lookup of the session the unsigned token names, the
    client check of that session exactly when [allow_external_clients] is
    false, [noexpire] is not among the returned permissions and a request is
    supplied, the signed decode under the secret of that session, the lookup
    of the user the signed token names, and the commit of the online time
    when it is triggered. *)
Theorem pipeline_call_order (perms : ApiPermissions.t) (ext : Collaborators)
    (token : string) (only_session_token : bool) (required : Required perms)
    (allow_deactivated allow_external_clients trigger_online_update : bool)
    (request : option Request.t) (w w' : World) (a : AuthData.t perms) :
  let cls := if only_session_token then SessionToken else AccessToken in
  let skip :=
    allow_external_clients
    || bool_decide (ApiPermissions.noexpire perms ∈ AuthData.permissions a) in
  query_auth_data_from_token perms ext token only_session_token required
    allow_deactivated allow_external_clients trigger_online_update request w
  = (Ok a, w') →
  ∃ unsigned z,
    decode_unsigned ext cls token = Ok unsigned ∧
    BaseToken.get_session_id unsigned = PyInt z ∧
    trace w' =
      trace w
        ++ [EvDecodeUnsigned cls token; EvSessionGetById z]
        ++ (match skip, request with
            | false, Some r => [EvSessionCheckClient (AuthData.session a) r]
            | _, _ => []
            end)
        ++ [EvDecode cls token (UserSession.token_secret (AuthData.session a));
            EvUserGetById (BaseToken.get_subject (AuthData.token a))]
        ++ (if trigger_online_update then [EvCommit] else []).
Proof.
  intros cls skip. unfold query_auth_data_from_token. fold cls. intros Hrun.
  apply bind_Ok_inv in Hrun as (a0 & w1 & Hdecode & Hrun).
  apply decode_token_Ok_trace in Hdecode
    as (unsigned & z & Hunsigned & Hz & _ & _ & Htrace).
  apply bind_Ok_inv in Hrun as ([] & w2 & Htype & Hrun).
  assert (w2 = w1) as ->.
  { destruct (only_session_token && _); [done|]. by injection Htype as <-. }
  apply query_auth_data_Ok_trace in Hrun as (Htok & Hsess & Hperms & Htrace').
  exists unsigned, z. subst skip. rewrite Htok, Hsess, Hperms.
  repeat split; try done.
  rewrite Htrace', Htrace. unfold checks_of. simpl. rewrite <- !app_assoc. simpl.
  by rewrite <- !app_assoc.
Qed.

(** A successful run in the sample deployment with the default flags and a
    request: six calls, the client check among them. *)
Lemma pipeline_call_order_witness :
  let req := Sample.request (Some "tok-alice") [] in
  ∃ a w',
    query_auth_data_from_token Sample.perms Sample.ext "tok-alice" false
      ReqNone false false true (Some req) Sample.world = (Ok a, w') ∧
    ∃ unsigned z,
      decode_unsigned Sample.ext AccessToken "tok-alice" = Ok unsigned ∧
      BaseToken.get_session_id unsigned = PyInt z ∧
      trace w' =
        trace Sample.world
          ++ [EvDecodeUnsigned AccessToken "tok-alice"; EvSessionGetById z]
          ++ (match
                false || bool_decide (Sample.noexpire ∈ AuthData.permissions a),
                Some req
              with
              | false, Some r => [EvSessionCheckClient (AuthData.session a) r]
              | _, _ => []
              end)
          ++ [EvDecode AccessToken "tok-alice"
                (UserSession.token_secret (AuthData.session a));
              EvUserGetById (BaseToken.get_subject (AuthData.token a))]
          ++ [EvCommit].
Proof.
  eexists _, _. split; [vm_compute; reflexivity|].
  eapply (pipeline_call_order Sample.perms Sample.ext "tok-alice" false ReqNone
            false false true (Some (Sample.request (Some "tok-alice") []))
            Sample.world).
  vm_compute; reflexivity.
Defined.

(** X10: the permissions of a returned AuthData are those parsed from the
    scope of the unsigned token (from the empty scope for a session token),
    and every permission the caller required is among them. *)
Theorem pipeline_permissions_from_unsigned_scope (perms : ApiPermissions.t)
    (ext : Collaborators) (token : string) (only_session_token : bool)
    (required : Required perms)
    (allow_deactivated allow_external_clients trigger_online_update : bool)
    (request : option Request.t) (w w' : World) (a : AuthData.t perms) :
  let cls := if only_session_token then SessionToken else AccessToken in
  query_auth_data_from_token perms ext token only_session_token required
    allow_deactivated allow_external_clients trigger_online_update request w
  = (Ok a, w') →
  ∃ unsigned,
    decode_unsigned ext cls token = Ok unsigned ∧
    ApiPermissions.parse_permissions_from_scope perms
      (if only_session_token then "" else BaseToken.get_scope unsigned)
      = Ok (AuthData.permissions a) ∧
    (∀ p, p ∈ required_list required → p ∈ AuthData.permissions a).
Proof.
  intros cls. unfold query_auth_data_from_token. fold cls. intros Hrun.
  apply bind_Ok_inv in Hrun as (a0 & w1 & Hdecode & Hrun).
  apply decode_token_Ok_trace in Hdecode
    as (unsigned & z & Hunsigned & _ & Hperms & _ & _).
  apply bind_Ok_inv in Hrun as ([] & w2 & Htype & Hrun).
  assert (w2 = w1) as ->.
  { destruct (only_session_token && _); [done|]. by injection Htype as <-. }
  apply query_auth_data_Ok_trace in Hrun as (_ & _ & Hsame & _).
  rewrite Hsame. clear Hsame Htype.
  assert ((if String.eqb (class_get_type cls) "access"
           then BaseToken.get_scope unsigned else "")
          = (if only_session_token then "" else BaseToken.get_scope unsigned))
    as Hscope by (subst cls; by destruct only_session_token).
  rewrite Hscope in Hperms.
  exists unsigned. split; [done|].
  unfold _query_scope_permissions in Hperms.
  destruct (ApiPermissions.parse_permissions_from_scope perms _)
    as [H|e] eqn:Hparse; [|done].
  fold (_query_scope_permissions perms) in Hperms.
  assert (_query_scope_permissions perms
            (if only_session_token then "" else BaseToken.get_scope unsigned)
            required = Ok (AuthData.permissions a0)) as Hcheck.
  { unfold _query_scope_permissions. by rewrite Hparse. }
  destruct (query_scope_permissions_Ok_inv perms _ required H _ Hparse Hcheck)
    as [-> Hall].
  by split.
Qed.

(** Alice's token with [oauth_clients] required and the default flags. *)
Lemma pipeline_permissions_from_unsigned_scope_witness :
  ∃ a w',
    query_auth_data_from_token Sample.perms Sample.ext "tok-alice" false
      (ReqList [Sample.oauth_clients]) false false true None Sample.world
    = (Ok a, w') ∧
    ∃ unsigned,
      decode_unsigned Sample.ext AccessToken "tok-alice" = Ok unsigned ∧
      Sample.parse_permissions_from_scope (BaseToken.get_scope unsigned)
        = Ok (AuthData.permissions a) ∧
      (∀ p, p ∈ [Sample.oauth_clients] → p ∈ AuthData.permissions a).
Proof.
  eexists _, _. split; [vm_compute; reflexivity|].
  eapply (pipeline_permissions_from_unsigned_scope Sample.perms Sample.ext
            "tok-alice" false (ReqList [Sample.oauth_clients]) false false true
            None Sample.world).
  vm_compute; reflexivity.
Defined.

(** X11: in session-token-only mode a call returns only for a signed token
    whose type tag is the session tag. *)
Theorem session_only_returns_session_token (perms : ApiPermissions.t)
    (ext : Collaborators) (token : string) (required : Required perms)
    (allow_deactivated allow_external_clients trigger_online_update : bool)
    (request : option Request.t) (w w' : World) (a : AuthData.t perms) :
  query_auth_data_from_token perms ext token true required allow_deactivated
    allow_external_clients trigger_online_update request w = (Ok a, w') →
  BaseToken.get_type (AuthData.token a) = class_get_type SessionToken.
Proof.
  unfold query_auth_data_from_token. intros Hrun.
  apply bind_Ok_inv in Hrun as (a0 & w1 & _ & Hrun).
  apply bind_Ok_inv in Hrun as ([] & w2 & Htype & Hrun).
  apply query_auth_data_Ok_trace in Hrun as (-> & _).
  destruct (String.eqb_spec (BaseToken.get_type (AuthData.token a0))
              (class_get_type SessionToken)) as [Heq|]; [done|].
  discriminate Htype.
Qed.

(** A session token of the sample deployment, with the default flags. *)
Lemma session_only_returns_session_token_witness :
  ∃ a w',
    query_auth_data_from_token Sample.perms Sample.ext "tok-session" true
      ReqNone false false true None Sample.world = (Ok a, w') ∧
    BaseToken.get_type (AuthData.token a) = class_get_type SessionToken.
Proof.
  eexists _, _. split; [vm_compute; reflexivity|].
  eapply (session_only_returns_session_token Sample.perms Sample.ext
            "tok-session" ReqNone false false true None Sample.world).
  vm_compute; reflexivity.
Defined.

(** X12: for a stored user who owns the session but is deactivated,
    [_query_auth_data] raises UserDeactivated after the user lookup, without
    updating the online time, unless [allow_deactivated] is set; with it the
    user is returned like an active one. *)
Theorem deactivated_user_gate (perms : ApiPermissions.t)
    (ext : Collaborators) (a : AuthData.t perms)
    (trigger_online_update : bool) (w : World) (u : User.t) :
  db_users w !! BaseToken.get_subject (AuthData.token a) = Some u →
  UserSession.owner_id (AuthData.session a) = User.id u →
  User.is_active u = false →
  _query_auth_data perms ext a false trigger_online_update w
    = (Raise (ApiErrorException USER_DEACTIVATED
                "User account currently deactivated and this method does not allow deactivated users!"
                None),
       log (EvUserGetById (BaseToken.get_subject (AuthData.token a))) w) ∧
  ∃ u' w',
    _query_auth_data perms ext a true trigger_online_update w
      = (Ok (AuthData.set_user u' a), w') ∧
    User.id u' = User.id u ∧ User.is_active u' = false.
Proof.
  intros Hu Howner Hinactive.
  unfold _query_auth_data, bind, crud_user_get_by_id. simpl.
  rewrite Hu, Howner, Z.eqb_refl, Hinactive. simpl. split; [done|].
  destruct trigger_online_update; simpl; eexists _, _; by repeat split.
Qed.

(** Bob, deactivated, on his session 12. *)
Lemma deactivated_user_gate_witness :
  let a := AuthData.mk (BaseToken.mk "access" 2 (PyInt 12) "" true)
             Sample.session12 [] None in
  _query_auth_data Sample.perms Sample.ext a false true Sample.world
    = (Raise (ApiErrorException USER_DEACTIVATED
                "User account currently deactivated and this method does not allow deactivated users!"
                None),
       log (EvUserGetById 2) Sample.world) ∧
  ∃ u' w',
    _query_auth_data Sample.perms Sample.ext a true true Sample.world
      = (Ok (AuthData.set_user u' a), w') ∧
    User.id u' = User.id Sample.bob ∧ User.is_active u' = false.
Proof.
  apply (deactivated_user_gate Sample.perms Sample.ext
           (AuthData.mk (BaseToken.mk "access" 2 (PyInt 12) "" true)
              Sample.session12 [] None) true Sample.world Sample.bob);
    reflexivity.
Defined.

(** ** The non-raising variant, in full *)

(** X13: [try_query_auth_data_from_request] never raises an
    [ApiErrorException]: it returns [(True, auth_data)] exactly when the
    wrapped call returns [auth_data], [(False, None)] exactly when the wrapped
    call raises an [ApiErrorException], and raises exactly the other
    exceptions of the wrapped call; the flag is true exactly when the data is
    there.  The world it leaves is that of the wrapped call. *)
Theorem try_query_auth_data_from_request_outcomes (perms : ApiPermissions.t)
    (ext : Collaborators)
    (req : Request.t) (only_session_token : bool) (required : Required perms)
    (allow_deactivated allow_external_clients : bool) (w : World) :
  let wrapped :=
    query_auth_data_from_request perms ext req only_session_token required
      allow_deactivated allow_external_clients true w in
  let tried :=
    try_query_auth_data_from_request perms ext req only_session_token required
      allow_deactivated allow_external_clients w in
  tried.2 = wrapped.2 ∧
  match tried.1 with
  | Ok (true, Some a) => wrapped.1 = Ok a
  | Ok (false, None) => ∃ e, wrapped.1 = Raise e ∧ is_ApiErrorException e = true
  | Ok _ => False
  | Raise e => wrapped.1 = Raise e ∧ is_ApiErrorException e = false
  end.
Proof.
  intros wrapped tried. subst tried.
  unfold try_query_auth_data_from_request, try_except_ApiErrorException, bind.
  fold wrapped. destruct wrapped as [[a|e] w1]; simpl; [done|].
  destruct (is_ApiErrorException e) eqn:He; simpl; [|done].
  split; [done|]. by exists e.
Qed.

(** X14: the non-raising variant has no switch for the online update: whenever
    it reports success, the returned user carries the current time as
    [time_online] and is stored under the token's subject. *)
Theorem try_query_always_updates_online_time (perms : ApiPermissions.t)
    (ext : Collaborators)
    (req : Request.t) (only_session_token : bool) (required : Required perms)
    (allow_deactivated allow_external_clients : bool) (w w' : World)
    (a : AuthData.t perms) :
  try_query_auth_data_from_request perms ext req only_session_token required
    allow_deactivated allow_external_clients w = (Ok (true, Some a), w') →
  ∃ u,
    AuthData.user a = Some u ∧
    User.time_online u = Some (datetime_now ext) ∧
    db_users w' !! BaseToken.get_subject (AuthData.token a) = Some u.
Proof.
  unfold try_query_auth_data_from_request, try_except_ApiErrorException, bind.
  destruct (query_auth_data_from_request perms ext req only_session_token required
              allow_deactivated allow_external_clients true w)
    as [[a1|e] w1] eqn:Hrun; simpl.
  - intros [= <- <-].
    unfold query_auth_data_from_request in Hrun.
    unfold query_auth_data_from_token in Hrun.
    apply bind_Ok_inv in Hrun as (a0 & w0 & Hdecode & Hrun).
    apply bind_Ok_inv in Hrun as ([] & w2 & Htype & Hrun).
    pose proof (query_auth_data_db perms ext a0 allow_deactivated true w2)
      as [_ Hdb].
    pose proof Hrun as Hok.
    apply query_auth_data_Ok in Hok as (found & Hfound & _ & _ & ->).
    rewrite Hrun in Hdb. simpl in Hdb. destruct Hdb as (found' & Hfound' & Hdb).
    rewrite Hfound in Hfound'. injection Hfound' as <-.
    exists (User.set_time_online (datetime_now ext) found). simpl.
    rewrite Hdb. by rewrite lookup_insert_eq.
  - by destruct (is_ApiErrorException e).
Qed.

(** A request with alice's token and the default flags. *)
Lemma try_query_always_updates_online_time_witness :
  ∃ a w',
    try_query_auth_data_from_request Sample.perms Sample.ext
      (Sample.request (Some "tok-alice") []) false ReqNone false false
      Sample.world = (Ok (true, Some a), w') ∧
    ∃ u,
      AuthData.user a = Some u ∧
      User.time_online u = Some (datetime_now Sample.ext) ∧
      db_users w' !! BaseToken.get_subject (AuthData.token a) = Some u.
Proof.
  eexists _, _. split; [vm_compute; reflexivity|].
  eapply (try_query_always_updates_online_time Sample.perms Sample.ext
            (Sample.request (Some "tok-alice") []) false ReqNone false false
            Sample.world).
  vm_compute; reflexivity.
Defined.



(** X24: when the client check is performed and refuses the request, the
    pipeline raises the error of the check right after it: the signed decode
    is not attempted, no user is looked up and nothing is committed. *)
Theorem suspicious_client_rejected (perms : ApiPermissions.t)
    (ext : Collaborators) (token : string) (only_session_token : bool)
    (required : Required perms) (allow_deactivated trigger_online_update : bool)
    (request : Request.t) (w : World) (unsigned : BaseToken.t)
    (permissions : list perms) (z : Z) (s : UserSession.t) (e : Exception) :
  let cls := if only_session_token then SessionToken else AccessToken in
  token ≠ "" →
  decode_unsigned ext cls token = Ok unsigned →
  _query_scope_permissions perms
    (if String.eqb (class_get_type cls) "access"
     then BaseToken.get_scope unsigned else "") required = Ok permissions →
  ApiPermissions.noexpire perms ∉ permissions →
  BaseToken.get_session_id unsigned = PyInt z →
  db_user_sessions w !! z = Some s →
  UserSession.is_active s = true →
  session_check_client_by_request ext s request = Raise e →
  query_auth_data_from_token perms ext token only_session_token required
    allow_deactivated false trigger_online_update (Some request) w
  = (Raise e,
     log (EvSessionCheckClient s request)
       (log (EvSessionGetById z) (log (EvDecodeUnsigned cls token) w))).
Proof.
  intros cls Htoken Hunsigned Hperms Hout Hsid Hs Hactive Hcheck.
  unfold query_auth_data_from_token. apply bind_Raise. fold cls.
  rewrite (decode_token_after_scope_check perms ext token cls required
             (Some request) false w unsigned permissions); try done.
  - apply bind_Raise. rewrite Hsid. cbn [negb].
    rewrite bool_decide_eq_false_2 by done.
    rewrite (query_session_from_sid_active ext z (Some request) false
               (log (EvDecodeUnsigned cls token) w) s Hs Hactive).
    by rewrite Hcheck.
  - subst cls. destruct only_session_token; auto.
Qed.

(** Alice's token sent from another client, with the strict client check. *)
Lemma suspicious_client_rejected_witness :
  let req := Sample.request (Some "tok-alice") [] in
  query_auth_data_from_token Sample.perms Demo.strict_ext "tok-alice" false
    ReqNone false false true (Some req) Sample.world
  = (Raise Demo.suspicious_client_error,
     log (EvSessionCheckClient Sample.session10 req)
       (log (EvSessionGetById 10)
          (log (EvDecodeUnsigned AccessToken "tok-alice") Sample.world))).
Proof.
  apply (suspicious_client_rejected Sample.perms Demo.strict_ext "tok-alice"
           false ReqNone false true (Sample.request (Some "tok-alice") [])
           Sample.world
           (BaseToken.mk "access" 1 (PyInt 10) "oauth_clients" false)
           [Sample.oauth_clients] 10 Sample.session10
           Demo.suspicious_client_error); try reflexivity.
  - discriminate.
  - intros Hin. apply list_elem_of_singleton in Hin. discriminate.
Defined.

(** X25: a closed session is rejected before the client check is consulted:
    for every flag combination and with or without a request, a token whose
    session was closed is answered with InvalidToken ("session was closed")
    right after the session lookup, and neither the client check nor the
    signed decode nor a user lookup is made. *)
Theorem closed_session_rejected_before_client_check (perms : ApiPermissions.t)
    (ext : Collaborators) (token : string) (only_session_token : bool)
    (required : Required perms)
    (allow_deactivated allow_external_clients trigger_online_update : bool)
    (request : option Request.t) (w : World) (unsigned : BaseToken.t)
    (permissions : list perms) (z : Z) (s : UserSession.t) :
  let cls := if only_session_token then SessionToken else AccessToken in
  token ≠ "" →
  decode_unsigned ext cls token = Ok unsigned →
  _query_scope_permissions perms
    (if String.eqb (class_get_type cls) "access"
     then BaseToken.get_scope unsigned else "") required = Ok permissions →
  BaseToken.get_session_id unsigned = PyInt z →
  db_user_sessions w !! z = Some s →
  UserSession.is_active s = false →
  query_auth_data_from_token perms ext token only_session_token required
    allow_deactivated allow_external_clients trigger_online_update request w
  = (Raise session_closed_error,
     log (EvSessionGetById z) (log (EvDecodeUnsigned cls token) w)).
Proof.
  intros cls Htoken Hunsigned Hperms Hsid Hs Hclosed.
  unfold query_auth_data_from_token. apply bind_Raise. fold cls.
  rewrite (decode_token_after_scope_check perms ext token cls required request
             allow_external_clients w unsigned permissions); try done.
  - apply bind_Raise. rewrite Hsid.
    by apply (query_session_from_sid_closed ext z request _ _ s).
  - subst cls. destruct only_session_token; auto.
Qed.

(** The token of the closed session 11, sent from another client with the
    default flags: the strict client check is not reached. *)
Lemma closed_session_rejected_before_client_check_witness :
  query_auth_data_from_token Sample.perms Demo.strict_ext "tok-closed" false
    ReqNone false false true (Some (Sample.request (Some "tok-closed") []))
    Sample.world
  = (Raise session_closed_error,
     log (EvSessionGetById 11)
       (log (EvDecodeUnsigned AccessToken "tok-closed") Sample.world)).
Proof.
  apply (closed_session_rejected_before_client_check Sample.perms
           Demo.strict_ext "tok-closed" false ReqNone false false true
           (Some (Sample.request (Some "tok-closed") [])) Sample.world
           (BaseToken.mk "access" 1 (PyInt 11) "" false) [] 11
           Sample.session11); try reflexivity.
  discriminate.
Defined.

(** X26: for every flag combination, a token of an active session that gets
    past the client check (when that is performed) and whose signed decode
    reports an invalid signature is rejected with InvalidToken ("unable to
    validate signature") right after the signed decode; no user is looked up
    and the database is as before. *)
Theorem invalid_signature_rejected_after_client_check
    (perms : ApiPermissions.t) (ext : Collaborators) (token : string)
    (only_session_token : bool) (required : Required perms)
    (allow_deactivated allow_external_clients trigger_online_update : bool)
    (request : option Request.t) (w : World) (unsigned signed : BaseToken.t)
    (permissions : list perms) (z : Z) (s : UserSession.t) :
  let cls := if only_session_token then SessionToken else AccessToken in
  let skip :=
    allow_external_clients
    || bool_decide (ApiPermissions.noexpire perms ∈ permissions) in
  let run :=
    query_auth_data_from_token perms ext token only_session_token required
      allow_deactivated allow_external_clients trigger_online_update request w in
  token ≠ "" →
  decode_unsigned ext cls token = Ok unsigned →
  _query_scope_permissions perms
    (if String.eqb (class_get_type cls) "access"
     then BaseToken.get_scope unsigned else "") required = Ok permissions →
  BaseToken.get_session_id unsigned = PyInt z →
  db_user_sessions w !! z = Some s →
  UserSession.is_active s = true →
  (∀ r, request = Some r → skip = false →
        session_check_client_by_request ext s r = Ok tt) →
  decode ext cls token (UserSession.token_secret s) = Ok signed →
  BaseToken.signature_is_valid signed = false →
  run.1 = Raise invalid_signature_error ∧
  trace run.2
  = trace w
      ++ [EvDecodeUnsigned cls token; EvSessionGetById z]
      ++ checks_of skip request s
      ++ [EvDecode cls token (UserSession.token_secret s)] ∧
  same_db w run.2.
Proof.
  intros cls skip run Htoken Hunsigned Hperms Hsid Hs Hactive Hcheck Hsigned
    Hinvalid.
  assert (run
          = (Raise invalid_signature_error,
             log (EvDecode cls token (UserSession.token_secret s))
               (match skip, request with
                | false, Some r =>
                    log (EvSessionCheckClient s r)
                      (log (EvSessionGetById z)
                         (log (EvDecodeUnsigned cls token) w))
                | _, _ =>
                    log (EvSessionGetById z)
                      (log (EvDecodeUnsigned cls token) w)
                end))) as ->.
  { subst run. unfold query_auth_data_from_token. apply bind_Raise. fold cls.
    rewrite (decode_token_after_scope_check perms ext token cls required request
               allow_external_clients w unsigned permissions); try done;
      [|subst cls; destruct only_session_token; auto].
    rewrite Hsid.
    assert ((if negb allow_external_clients
             then bool_decide (ApiPermissions.noexpire perms ∈ permissions)
             else true) = skip) as ->
      by (subst skip; by destruct allow_external_clients).
    unfold bind at 1.
    rewrite (query_session_from_sid_active ext z request skip
               (log (EvDecodeUnsigned cls token) w) s Hs Hactive).
    destruct skip eqn:Hskip, request as [r|]; cbv beta iota;
      try (unfold bind, call_decode; by rewrite Hsigned, Hinvalid).
    rewrite (Hcheck r eq_refl eq_refl).
    unfold bind, call_decode. by rewrite Hsigned, Hinvalid. }
  split; [done|]. split; [|by destruct skip, request].
  unfold checks_of. destruct skip, request as [r|]; simpl;
    by rewrite <- !app_assoc.
Qed.

(** Alice's token after the secret of session 10 was changed, sent with a
    request and the default flags: the client check passes, the signature
    does not. *)
Lemma invalid_signature_rejected_after_client_check_witness :
  let req := Sample.request (Some "tok-alice") [] in
  let run :=
    query_auth_data_from_token Sample.perms Sample.ext "tok-alice" false ReqNone
      false false true (Some req) Demo.world_rotated in
  run.1 = Raise invalid_signature_error ∧
  trace run.2
  = trace Demo.world_rotated
      ++ [EvDecodeUnsigned AccessToken "tok-alice"; EvSessionGetById 10]
      ++ checks_of
           (false || bool_decide (Sample.noexpire ∈ [Sample.oauth_clients]))
           (Some req) (UserSession.mk 10 1 "rotated" true)
      ++ [EvDecode AccessToken "tok-alice" "rotated"] ∧
  same_db Demo.world_rotated run.2.
Proof.
  apply (invalid_signature_rejected_after_client_check Sample.perms Sample.ext
           "tok-alice" false ReqNone false false true
           (Some (Sample.request (Some "tok-alice") [])) Demo.world_rotated
           (BaseToken.mk "access" 1 (PyInt 10) "oauth_clients" false)
           (BaseToken.mk "access" 1 (PyInt 10) "oauth_clients" false)
           [Sample.oauth_clients] 10 (UserSession.mk 10 1 "rotated" true));
    try reflexivity.
  discriminate.
Defined.
(** ** Sign-up validation *)
Section SignupFacts.

Variable settings : Settings.
Variables email_is_taken username_is_taken validate_email isalpha islower
  : string → bool.

Let validate :=
  validate_signup_fields settings email_is_taken username_is_taken
    validate_email isalpha islower.

(** The checks, each as the condition under which it passes. *)
Lemma validate_signup_fields_cases (username email password : string) :
  match validate username email password with
  | Ok _ =>
      email_is_taken email = false ∧ username_is_taken username = false ∧
      (signup_validate_email settings = true → validate_email email = true) ∧
      (5 ≤ str_len username ≤ 16)%nat ∧
      (signup_username_reject_nonalpha settings = true → isalpha username = true) ∧
      (signup_username_reject_uppercase settings = true → islower username = true) ∧
      (6 ≤ str_len password ≤ 64)%nat
  | Raise e =>
      ∃ c m,
        e = ApiErrorException c m None ∧
        match c with
        | AUTH_EMAIL_TAKEN => email_is_taken email = true
        | AUTH_USERNAME_TAKEN =>
            email_is_taken email = false ∧ username_is_taken username = true
        | AUTH_EMAIL_INVALID =>
            email_is_taken email = false ∧ username_is_taken username = false ∧
            signup_validate_email settings = true ∧ validate_email email = false
        | AUTH_USERNAME_INVALID =>
            email_is_taken email = false ∧ username_is_taken username = false ∧
            (signup_validate_email settings = true → validate_email email = true) ∧
            ((str_len username ≤ 4)%nat ∨ (16 < str_len username)%nat
             ∨ (signup_username_reject_nonalpha settings = true
                ∧ isalpha username = false)
             ∨ (signup_username_reject_uppercase settings = true
                ∧ islower username = false))
        | AUTH_PASSWORD_INVALID =>
            email_is_taken email = false ∧ username_is_taken username = false ∧
            (signup_validate_email settings = true → validate_email email = true) ∧
            (5 ≤ str_len username ≤ 16)%nat ∧
            (signup_username_reject_nonalpha settings = true →
             isalpha username = true) ∧
            (signup_username_reject_uppercase settings = true →
             islower username = true) ∧
            ((str_len password ≤ 5)%nat ∨ (64 < str_len password)%nat)
        | _ => False
        end
  end.
Proof.
  unfold validate, validate_signup_fields, signup_error.
  destruct (email_is_taken email) eqn:He; [by eexists _, _|].
  destruct (username_is_taken username) eqn:Hu; [by eexists _, _|].
  destruct (signup_validate_email settings && negb (validate_email email)) eqn:Hv.
  { apply andb_true_iff in Hv as [Hs Hv]. apply negb_true_iff in Hv.
    by eexists _, _. }
  assert (signup_validate_email settings = true → validate_email email = true)
    as Hvalid.
  { intros Hs. rewrite Hs in Hv. simpl in Hv. by apply negb_false_iff in Hv. }
  destruct (Nat.leb_spec (str_len username) 4) as [Hlo|Hlo].
  { eexists _, _. split; [done|]. repeat split; auto. }
  destruct (Nat.ltb_spec 16 (str_len username)) as [Hhi|Hhi].
  { eexists _, _. split; [done|]. repeat split; auto. }
  destruct (signup_username_reject_nonalpha settings && negb (isalpha username))
    eqn:Ha.
  { apply andb_true_iff in Ha as [Hs Ha]. apply negb_true_iff in Ha.
    eexists _, _. split; [done|]. repeat split; auto. }
  assert (signup_username_reject_nonalpha settings = true → isalpha username = true)
    as Halpha.
  { intros Hs. rewrite Hs in Ha. simpl in Ha. by apply negb_false_iff in Ha. }
  destruct (signup_username_reject_uppercase settings && negb (islower username))
    eqn:Hl.
  { apply andb_true_iff in Hl as [Hs Hl]. apply negb_true_iff in Hl.
    eexists _, _. split; [done|]. repeat split; auto 6. }
  assert (signup_username_reject_uppercase settings = true → islower username = true)
    as Hlower.
  { intros Hs. rewrite Hs in Hl. simpl in Hl. by apply negb_false_iff in Hl. }
  destruct (Nat.leb_spec (str_len password) 5) as [Hplo|Hplo].
  { eexists _, _. split; [done|]. repeat split; auto; lia. }
  destruct (Nat.ltb_spec 64 (str_len password)) as [Hphi|Hphi].
  { eexists _, _. split; [done|]. repeat split; auto; lia. }
  repeat split; auto; lia.
Qed.

End SignupFacts.

(** X15: [validate_signup_fields] returns without raising exactly when the
    email and the username are free, the email passes [validate_email] (when
    that check is on), the username has 5 to 16 characters and passes the
    alphabet and lowercase checks (when they are on), and the password has 6
    to 64 characters. *)
Theorem validate_signup_fields_accepts_iff (settings : Settings)
    (email_is_taken username_is_taken validate_email isalpha islower
       : string → bool)
    (username email password : string) :
  validate_signup_fields settings email_is_taken username_is_taken validate_email
    isalpha islower username email password = Ok tt
  ↔ email_is_taken email = false ∧ username_is_taken username = false ∧
    (signup_validate_email settings = true → validate_email email = true) ∧
    (5 ≤ str_len username ≤ 16)%nat ∧
    (signup_username_reject_nonalpha settings = true → isalpha username = true) ∧
    (signup_username_reject_uppercase settings = true → islower username = true) ∧
    (6 ≤ str_len password ≤ 64)%nat.
Proof.
  pose proof (validate_signup_fields_cases settings email_is_taken
                username_is_taken validate_email isalpha islower
                username email password) as Hcases.
  split.
  - intros Hok. by rewrite Hok in Hcases.
  - intros (He & Hu & Hv & Hlen & Ha & Hl & Hp).
    destruct (validate_signup_fields _ _ _ _ _ _ _ _ _) as [[]|e]; [done|].
    destruct Hcases as (c & m & _ & Hc).
    destruct c; try done.
    + congruence.
    + destruct Hc as [_ Hc]. congruence.
    + destruct Hc as (_ & _ & Hs & Hc). specialize (Hv Hs). congruence.
    + destruct Hc as (_ & _ & _ & [Hc|[Hc|[[Hs Hc]|[Hs Hc]]]]); try lia.
      * specialize (Ha Hs). congruence.
      * specialize (Hl Hs). congruence.
    + destruct Hc as (_ & _ & _ & _ & _ & _ & [Hc|Hc]); lia.
Qed.

(** X16: every error of [validate_signup_fields] is an [ApiErrorException]
    without data whose code is one of the five validator codes, and the code
    tells which check failed first in the fixed order: a taken email before a
    taken username, before the email format, before the username rules,
    before the password length. *)
Theorem validate_signup_fields_first_failure (settings : Settings)
    (email_is_taken username_is_taken validate_email isalpha islower
       : string → bool)
    (username email password : string) (e : Exception) :
  validate_signup_fields settings email_is_taken username_is_taken validate_email
    isalpha islower username email password = Raise e →
  ∃ c m,
    e = ApiErrorException c m None ∧
    c ∈ [AUTH_EMAIL_TAKEN; AUTH_USERNAME_TAKEN; AUTH_EMAIL_INVALID;
         AUTH_USERNAME_INVALID; AUTH_PASSWORD_INVALID] ∧
    (c = AUTH_EMAIL_TAKEN ↔ email_is_taken email = true) ∧
    (c = AUTH_USERNAME_TAKEN
     ↔ email_is_taken email = false ∧ username_is_taken username = true) ∧
    (c = AUTH_EMAIL_INVALID
     ↔ email_is_taken email = false ∧ username_is_taken username = false ∧
       signup_validate_email settings = true ∧ validate_email email = false) ∧
    (c = AUTH_PASSWORD_INVALID →
     (5 ≤ str_len username ≤ 16)%nat ∧
     ((str_len password ≤ 5)%nat ∨ (64 < str_len password)%nat)).
Proof.
  intros Hraise.
  pose proof (validate_signup_fields_cases settings email_is_taken
                username_is_taken validate_email isalpha islower
                username email password) as Hcases.
  rewrite Hraise in Hcases. destruct Hcases as (c & m & -> & Hc).
  exists c, m. split; [done|].
  destruct c; try done.
  - split; [repeat constructor|]. repeat split; try done; try congruence.
    + intros [? _]. congruence.
    + intros [? _]. congruence.
  - destruct Hc as [He Hu].
    split; [repeat constructor|]. repeat split; try done; try congruence.
    intros (_ & ? & _). congruence.
  - destruct Hc as (He & Hu & Hs & Hv).
    split; [repeat constructor|]. repeat split; try done; try congruence.
    intros [_ ?]. congruence.
  - destruct Hc as (He & Hu & Hv & Hc).
    split; [repeat constructor|]. repeat split; try done; try congruence.
    + intros [_ ?]. congruence.
    + intros (_ & _ & Hs & Hx). specialize (Hv Hs). congruence.
  - destruct Hc as (He & Hu & Hv & Hlen & _ & _ & Hp).
    split; [repeat constructor|]. repeat split; try done; try congruence; try lia.
    + intros [_ ?]. congruence.
    + intros (_ & _ & Hs & Hx). specialize (Hv Hs). congruence.
Qed.

(** A taken email wins over a taken username and a short password. *)
Lemma validate_signup_fields_first_failure_witness :
  ∃ c m,
    ApiErrorException AUTH_EMAIL_TAKEN "Given email is already taken!" None
      = ApiErrorException c m None ∧
    c ∈ [AUTH_EMAIL_TAKEN; AUTH_USERNAME_TAKEN; AUTH_EMAIL_INVALID;
         AUTH_USERNAME_INVALID; AUTH_PASSWORD_INVALID] ∧
    (c = AUTH_EMAIL_TAKEN ↔ Demo.email_is_taken "alice@example.org" = true) ∧
    (c = AUTH_USERNAME_TAKEN
     ↔ Demo.email_is_taken "alice@example.org" = false
       ∧ Demo.username_is_taken "alice" = true) ∧
    (c = AUTH_EMAIL_INVALID
     ↔ Demo.email_is_taken "alice@example.org" = false
       ∧ Demo.username_is_taken "alice" = false
       ∧ signup_validate_email Demo.settings = true
       ∧ Demo.validate_email "alice@example.org" = false) ∧
    (c = AUTH_PASSWORD_INVALID →
     (5 ≤ str_len "alice" ≤ 16)%nat ∧
     ((str_len "pw" ≤ 5)%nat ∨ (64 < str_len "pw")%nat)).
Proof.
  apply (validate_signup_fields_first_failure Demo.settings Demo.email_is_taken
           Demo.username_is_taken Demo.validate_email Demo.isalpha Demo.isalpha
           "alice" "alice@example.org" "pw").
  reflexivity.
Defined.


(** Lengths count characters, not bytes: a username of five two-byte
    characters passes the length check, and one of seventeen such characters
    fails it. *)
Example validate_signup_fields_counts_characters :
  validate_signup_fields Demo.settings Demo.email_is_taken
    Demo.username_is_taken (λ _, true) (λ _, true) (λ _, true)
    "ééééé" "new@example.org" "secret" = Ok tt
  ∧ validate_signup_fields Demo.settings Demo.email_is_taken
      Demo.username_is_taken (λ _, true) (λ _, true) (λ _, true)
      "ééééééééééééééééé" "new@example.org" "secret"
    = Raise (signup_error AUTH_USERNAME_INVALID
               "Username should be shorten than 16!").
Proof. split; reflexivity. Qed.
(** ** The user serializer *)

(** X17: the serialized user carries the email exactly when both
    [include_email] and [include_private_fields] are set, and then it is the
    user's email. *)
Theorem serialize_email_needs_private (user : User.t) (profile : UserProfile.t)
    (include_email include_optional_fields include_private_fields
       include_profile_fields : bool) :
  dict_get "email"
    (serialized_user_of
       (serialize user profile include_email include_optional_fields
          include_private_fields include_profile_fields))
  = if include_email && include_private_fields
    then Some (JStr (User.email user)) else None.
Proof.
  unfold serialize.
  destruct include_email, include_optional_fields, include_private_fields,
    include_profile_fields, (User.is_admin user); reflexivity.
Qed.

(** X18: the states of the serialized user name [is_admin] only for an
    administrator, and only when optional and private fields are both
    included; for everyone else the key is absent, not false.  [is_confirmed]
    is there exactly when optional and private fields are included. *)
Theorem serialize_states (user : User.t) (profile : UserProfile.t)
    (include_email include_optional_fields include_private_fields
       include_profile_fields : bool) :
  let serialized_user :=
    serialized_user_of
      (serialize user profile include_email include_optional_fields
         include_private_fields include_profile_fields) in
  let state key :=
    match dict_get "states" serialized_user with
    | Some (JDict states) => dict_get key states
    | _ => None
    end in
  state "is_admin"
    = (if include_optional_fields && include_private_fields && User.is_admin user
       then Some (JBool true) else None) ∧
  state "is_confirmed"
    = (if include_optional_fields && include_private_fields
       then Some (JBool (User.is_verified user)) else None) ∧
  state "is_active"
    = (if include_optional_fields then Some (JBool (User.is_active user)) else None).
Proof.
  unfold serialize.
  destruct include_email, include_optional_fields, include_private_fields,
    include_profile_fields, (User.is_admin user) eqn:Hadmin;
    by repeat split.
Qed.



(** X20: the response has the single key ["user"], and the keys of the
    serialized user are the six base keys, then ["profile"], ["email"] and the
    three optional keys, each group when its flags are set, in this order. *)
Theorem serialize_keys (user : User.t) (profile : UserProfile.t)
    (include_email include_optional_fields include_private_fields
       include_profile_fields : bool) :
  let response :=
    serialize user profile include_email include_optional_fields
      include_private_fields include_profile_fields in
  dict_keys response = ["user"] ∧
  dict_keys (serialized_user_of response)
  = ["id"; "username"; "avatar"; "first_name"; "last_name"; "sex"]
      ++ (if include_profile_fields then ["profile"] else [])
      ++ (if include_email && include_private_fields then ["email"] else [])
      ++ (if include_optional_fields
          then ["time_created"; "time_online"; "states"] else []).
Proof.
  unfold serialize.
  destruct include_email, include_optional_fields, include_private_fields,
    include_profile_fields, (User.is_admin user); by split.
Qed.

(** ** The email confirmation endpoint *)
Section ConfirmFacts.

Variable EmailToken_decode : string → string → Result BaseToken.t.
Variable cft_secret : string.
Variable email_confirm : gmap Z User.t → User.t → gmap Z User.t * User.t.
Variable get_mention : User.t → string.

Let confirm :=
  method_email_confirmation_confirm EmailToken_decode cft_secret email_confirm
    get_mention.

(** The outcomes of the endpoint, by the decode result and the stored user. *)
Lemma confirm_cases (cft : string) (db_users : gmap Z User.t) :
  match confirm cft db_users with
  | Raise e =>
      EmailToken_decode cft cft_secret = Raise e ∧
      e ∉ [TokenInvalidError; TokenInvalidSignatureError; TokenExpiredError;
           TokenWrongTypeError]
  | Ok (api_error code message, db_users', mails) =>
      db_users' = db_users ∧ mails = [] ∧
      match code with
      | EMAIL_CONFIRMATION_TOKEN_INVALID =>
          ∃ e, EmailToken_decode cft cft_secret = Raise e ∧
               e ∈ [TokenInvalidError; TokenInvalidSignatureError;
                    TokenExpiredError; TokenWrongTypeError]
      | EMAIL_CONFIRMATION_USER_NOT_FOUND =>
          ∃ t, EmailToken_decode cft cft_secret = Ok t ∧
               db_users !! BaseToken.get_subject t = None
      | EMAIL_CONFIRMATION_ALREADY_CONFIRMED =>
          ∃ t user, EmailToken_decode cft cft_secret = Ok t ∧
                    db_users !! BaseToken.get_subject t = Some user ∧
                    User.is_verified user = true
      | _ => False
      end
  | Ok (api_success data, db_users', mails) =>
      ∃ t user,
        EmailToken_decode cft cft_secret = Ok t ∧
        db_users !! BaseToken.get_subject t = Some user ∧
        User.is_verified user = false ∧
        db_users' = (email_confirm db_users user).1 ∧
        let user' := (email_confirm db_users user).2 in
        data = [("email", JStr (User.email user')); ("confirmed", JBool true)] ∧
        mails = [VerificationEndEmail (User.email user') (get_mention user')]
  end.
Proof.
  unfold confirm, method_email_confirmation_confirm.
  destruct (EmailToken_decode cft cft_secret) as [t|e] eqn:Hdecode.
  - destruct (db_users !! BaseToken.get_subject t) as [user|] eqn:Huser.
    + destruct (User.is_verified user) eqn:Hverified.
      * repeat split; try done. by exists t, user.
      * destruct (email_confirm db_users user) as [db' user'] eqn:Hconfirm.
        exists t, user. by rewrite Hconfirm.
    + repeat split; try done. by exists t.
  - destruct e;
      try (split; [done|]; rewrite !not_elem_of_cons;
           by repeat split; try apply not_elem_of_nil);
      (split; [done|]; split; [done|]; eexists; split;
       [done|repeat constructor]).
Qed.

End ConfirmFacts.

(** X21: the confirmation endpoint answers each of the four decode errors
    with an EMAIL_CONFIRMATION_TOKEN_INVALID response instead of raising, and
    an exception leaves it only when the decode raised something else. *)
Theorem confirm_translates_token_errors
    (EmailToken_decode : string → string → Result BaseToken.t)
    (cft_secret : string)
    (email_confirm : gmap Z User.t → User.t → gmap Z User.t * User.t)
    (get_mention : User.t → string) (cft : string) (db_users : gmap Z User.t) :
  let outcome :=
    method_email_confirmation_confirm EmailToken_decode cft_secret email_confirm
      get_mention cft db_users in
  (∀ e, EmailToken_decode cft cft_secret = Raise e →
        e ∈ [TokenInvalidError; TokenInvalidSignatureError; TokenExpiredError;
             TokenWrongTypeError] →
        ∃ message,
          outcome = Ok (api_error EMAIL_CONFIRMATION_TOKEN_INVALID message,
                        db_users, [])) ∧
  (∀ e, outcome = Raise e →
        EmailToken_decode cft cft_secret = Raise e ∧
        e ∉ [TokenInvalidError; TokenInvalidSignatureError; TokenExpiredError;
             TokenWrongTypeError]).
Proof.
  intros outcome. split.
  - intros e Hdecode He. subst outcome.
    unfold method_email_confirmation_confirm. rewrite Hdecode.
    repeat (apply elem_of_cons in He as [->|He]; [by eexists|]).
    by apply elem_of_nil in He.
  - intros e Hraise.
    pose proof (confirm_cases EmailToken_decode cft_secret email_confirm
                  get_mention cft db_users) as Hcases.
    fold outcome in Hcases. by rewrite Hraise in Hcases.
Qed.

(** X22: the endpoint confirms exactly when the token decodes to a stored
    user who is not verified yet: then the users table is the one
    [email_confirm] leaves, one mail goes to the confirmed user's address and
    the response carries that address.  Every error response leaves the users
    table as it was and sends no mail. *)
Theorem confirm_effects
    (EmailToken_decode : string → string → Result BaseToken.t)
    (cft_secret : string)
    (email_confirm : gmap Z User.t → User.t → gmap Z User.t * User.t)
    (get_mention : User.t → string) (cft : string) (db_users : gmap Z User.t) :
  let outcome :=
    method_email_confirmation_confirm EmailToken_decode cft_secret email_confirm
      get_mention cft db_users in
  (∀ t user,
     EmailToken_decode cft cft_secret = Ok t →
     db_users !! BaseToken.get_subject t = Some user →
     User.is_verified user = false →
     let user' := (email_confirm db_users user).2 in
     outcome
     = Ok (api_success [("email", JStr (User.email user')); ("confirmed", JBool true)],
           (email_confirm db_users user).1,
           [VerificationEndEmail (User.email user') (get_mention user')])) ∧
  (∀ data db_users' mails,
     outcome = Ok (api_success data, db_users', mails) →
     ∃ t user,
       EmailToken_decode cft cft_secret = Ok t ∧
       db_users !! BaseToken.get_subject t = Some user ∧
       User.is_verified user = false) ∧
  (∀ code message db_users' mails,
     outcome = Ok (api_error code message, db_users', mails) →
     db_users' = db_users ∧ mails = []).
Proof.
  intros outcome.
  pose proof (confirm_cases EmailToken_decode cft_secret email_confirm
                get_mention cft db_users) as Hcases.
  fold outcome in Hcases.
  split; [|split].
  - intros t user Hdecode Huser Hverified. subst outcome.
    unfold method_email_confirmation_confirm.
    rewrite Hdecode, Huser, Hverified.
    by destruct (email_confirm db_users user).
  - intros data db' mails Hout. rewrite Hout in Hcases.
    destruct Hcases as (t & user & ? & ? & ? & _). by exists t, user.
  - intros code message db' mails Hout. rewrite Hout in Hcases.
    by destruct Hcases as (? & ? & _).
Qed.

(** X23: the endpoint uses the decoded token for its subject only and never
    asks whether its signature is valid: two decoders that return tokens of
    the same subject give the same outcome, so a bad signature is refused
    only if the decoder itself raises. *)
Theorem confirm_reads_subject_only
    (decode1 decode2 : string → string → Result BaseToken.t)
    (cft_secret : string)
    (email_confirm : gmap Z User.t → User.t → gmap Z User.t * User.t)
    (get_mention : User.t → string) (cft : string) (db_users : gmap Z User.t)
    (t1 t2 : BaseToken.t) :
  decode1 cft cft_secret = Ok t1 →
  decode2 cft cft_secret = Ok t2 →
  BaseToken.get_subject t1 = BaseToken.get_subject t2 →
  method_email_confirmation_confirm decode1 cft_secret email_confirm get_mention
    cft db_users
  = method_email_confirmation_confirm decode2 cft_secret email_confirm get_mention
      cft db_users.
Proof.
  intros H1 H2 Hsubject. unfold method_email_confirmation_confirm.
  by rewrite H1, H2, Hsubject.
Qed.

(** Carol's token, and a decoder that reports its signature as invalid
    without raising: carol is confirmed all the same. *)
Lemma confirm_reads_subject_only_witness :
  method_email_confirmation_confirm Demo.EmailToken_decode "cft-secret"
    Demo.email_confirm Demo.get_mention "cft-carol" Demo.users
  = method_email_confirmation_confirm
      (λ _ _, Ok (BaseToken.mk "email" 3 PyNone "" false)) "cft-secret"
      Demo.email_confirm Demo.get_mention "cft-carol" Demo.users.
Proof.
  apply (confirm_reads_subject_only Demo.EmailToken_decode
           (λ _ _, Ok (BaseToken.mk "email" 3 PyNone "" false)) "cft-secret"
           Demo.email_confirm Demo.get_mention "cft-carol" Demo.users
           (BaseToken.mk "email" 3 PyNone "" true)
           (BaseToken.mk "email" 3 PyNone "" false)); reflexivity.
Defined.
